(** * isp-service-checker: the probe loop of [main.py], embedded and verified

    The program measures download rate, upload rate and latency at a fixed
    cadence, appends one CSV row per successful measurement and stops when
    SIGINT or SIGTERM has been delivered.

    Layout of this development:
    - [Py]: exceptions, results of calls, decimal text, binary floats and
      the [.2f] conversion;
    - [Datetime]: [datetime.replace] and [datetime.isoformat];
    - [Csv]: [csv.writer(...).writerow] for the default dialect;
    - [os]: the regular files of the file system and [os.path];
    - [Builtins]: [int()], [str()], [dict.get] and subscripts on the
      values [tomllib] builds;
    - the functions of [main.py], one definition each, and the run loop of
      [main] as a machine stepped by environment events (a stop signal is
      delivered, or [main] moves on with the answers of the environment);
    - the notions the statements use and the concrete inputs of the
      examples;
    - the facts, by component, and the theorems at concrete inputs.

    What lies outside [main.py] is taken as follows.  [tomllib.loads] and
    the [repr] of floats and containers are parameters of the Section.
    The speed test is the environment's answer, three floats or an
    exception; [Speedtest] embeds [run_speed_test] itself over the answers
    of the [speedtest] package, with binary64 arithmetic.  The file system
    holds regular files; whether the size of a file can be read, a
    directory created or a file opened for appending is the environment's
    answer, and a call that raises leaves the files as they were.  The
    standard streams are the lists of the [print] calls made, and time is
    the list of the arguments of [time.sleep]. *)

From Stdlib Require Import ZArith Lia Ascii String Floats.SpecFloat.
From stdpp Require Import gmap strings list fin_maps.

Local Open Scope Z_scope.

(** String concatenation reduces on a constructor, as list append does. *)
#[local] Arguments String.append !s1 s2 : simpl nomatch.

(* ===================================================================== *)
(** * Python values *)
(* ===================================================================== *)

Module Py.

(** The exception classes the program can meet.  [KeyboardInterrupt] and
    [SystemExit] derive from [BaseException] only: [except Exception]
    does not catch them.  A [SystemExit] carries the status the
    interpreter exits with when nothing catches it (0 for the code [None],
    [n] for an integer code [n], 1 for any other code). *)
Inductive exn_class :=
| ValueError | TypeError | OverflowError | AttributeError
| KeyError | OSError | FileExistsError | TOMLDecodeError
| ModuleNotFoundError | SpeedtestException | RuntimeError
| KeyboardInterrupt | SystemExit (status : Z).

(** An exception instance: its class and [str(exc)]. *)
Record exn := Exn { exn_cls : exn_class; exn_str : string }.

Definition is_Exception (e : exn) : bool :=
  match exn_cls e with
  | KeyboardInterrupt | SystemExit _ => false
  | _ => true
  end.

(** [issubclass(cls, OSError)] for the classes above. *)
Definition is_OSError (e : exn) : bool :=
  match exn_cls e with
  | OSError | FileExistsError => true
  | _ => false
  end.

(** A call either returns or raises. *)
Inductive result (A : Type) :=
| Ok (a : A)
| Raise (e : exn).
Arguments Ok {A} a.
Arguments Raise {A} e.

Definition bind {A B} (r : result A) (k : A -> result B) : result B :=
  match r with
  | Ok a => k a
  | Raise e => Raise e
  end.

(** ** Text *)

Definition chr (n : nat) : ascii := ascii_of_nat n.
Definition str1 (c : ascii) : string := String c EmptyString.

Definition COMMA : ascii := chr 44.
Definition DQUOTE : ascii := chr 34.
Definition CR : ascii := chr 13.
Definition LF : ascii := chr 10.

Definition is_digit (c : ascii) : bool :=
  let n := Z.of_nat (nat_of_ascii c) in (48 <=? n) && (n <=? 57).

Definition digit_char (d : Z) : ascii := chr (Z.to_nat (48 + d)).

Fixpoint all_chars (p : ascii -> bool) (s : string) : bool :=
  match s with
  | EmptyString => true
  | String c s' => p c && all_chars p s'
  end.

Fixpoint any_char (p : ascii -> bool) (s : string) : bool :=
  match s with
  | EmptyString => false
  | String c s' => p c || any_char p s'
  end.

(** The decimal digits of [n >= 0], most significant first, pushed in
    front of [acc]. *)
Fixpoint dec_digits (fuel : nat) (n : Z) (acc : string) : string :=
  match fuel with
  | O => acc
  | S k =>
      let acc' := String (digit_char (n mod 10)) acc in
      if n / 10 =? 0 then acc' else dec_digits k (n / 10) acc'
  end.

(** ["%d" % n] for [n >= 0]. *)
Definition dec (n : Z) : string :=
  dec_digits (S (Z.to_nat (Z.log2 n))) n EmptyString.

(** [str(n)] for an [int]. *)
Definition str_int (n : Z) : string :=
  if n <? 0 then "-" +:+ dec (- n) else dec n.

Fixpoint zeros (k : nat) : string :=
  match k with
  | O => EmptyString
  | S k' => String (digit_char 0) (zeros k')
  end.

(** ["%0wd" % n] for [n >= 0]. *)
Definition zpad (w : nat) (n : Z) : string :=
  let d := dec n in zeros (w - String.length d) +:+ d.

(** ** Floats

    A Python [float] is an IEEE 754 binary64; [spec_float] names its
    values: [S754_finite s m e] is [(-1)^s * m * 2^e]. *)

Definition round_half_even (num den : Z) : Z :=
  let q := num / den in
  let r := num mod den in
  if 2 * r <? den then q
  else if den <? 2 * r then q + 1
  else if Z.even q then q else q + 1.

(** The integer nearest to [m * 2^e * 100], ties to even: the digits
    that the correctly rounded [.2f] conversion prints. *)
Definition hundredths (m : positive) (e : Z) : Z :=
  if 0 <=? e then Z.pos m * 100 * 2 ^ e
  else round_half_even (Z.pos m * 100) (2 ^ (- e)).

Definition sign_str (s : bool) : string := if s then "-" else EmptyString.

(** [f"{x:.2f}"]. *)
Definition format_2f (x : spec_float) : string :=
  match x with
  | S754_nan => "nan"
  | S754_infinity s => sign_str s +:+ "inf"
  | S754_zero s => sign_str s +:+ "0.00"
  | S754_finite s m e =>
      let n := hundredths m e in
      sign_str s +:+ dec (n / 100) +:+ "." +:+ zpad 2 (n mod 100)
  end.

Definition is_finite (x : spec_float) : bool :=
  match x with
  | S754_zero _ | S754_finite _ _ _ => true
  | _ => false
  end.

(** [int(x)] for a float: truncation toward zero. *)
Definition int_of_float (x : spec_float) : result Z :=
  match x with
  | S754_nan => Raise (Exn ValueError "cannot convert float NaN to integer")
  | S754_infinity _ =>
      Raise (Exn OverflowError "cannot convert float infinity to integer")
  | S754_zero _ => Ok 0
  | S754_finite s m e =>
      let a := if 0 <=? e then Z.pos m * 2 ^ e else Z.pos m / 2 ^ (- e) in
      Ok (if s then - a else a)
  end.

End Py.

Import Py.

(* ===================================================================== *)
(** * [datetime] *)
(* ===================================================================== *)

Module Datetime.

(** A [datetime] object.  [tzinfo] is [None] for a naive value, else the
    UTC offset of the zone in seconds. *)
Record datetime := {
  year : Z; month : Z; day : Z;
  hour : Z; minute : Z; second : Z; microsecond : Z;
  tzinfo : option Z;
}.

(** [timezone.utc]. *)
Definition utc : option Z := Some 0.

(** [d.replace(tzinfo=tz)]: the fields are kept, the zone is overwritten
    (no conversion). *)
Definition replace_tzinfo (tz : option Z) (d : datetime) : datetime :=
  {| year := year d; month := month d; day := day d;
     hour := hour d; minute := minute d; second := second d;
     microsecond := microsecond d; tzinfo := tz |}.

(** The offset suffix of [isoformat]: [+HH:MM], with [:SS] when the
    offset has seconds; nothing for a naive value. *)
Definition format_offset (tz : option Z) : string :=
  match tz with
  | None => EmptyString
  | Some off =>
      let sign := if off <? 0 then "-" else "+" in
      let a := Z.abs off in
      let hh := a / 3600 in
      let mm := (a mod 3600) / 60 in
      let ss := a mod 60 in
      sign +:+ zpad 2 hh +:+ ":" +:+ zpad 2 mm
           +:+ (if ss =? 0 then EmptyString else ":" +:+ zpad 2 ss)
  end.

(** [d.isoformat()]. *)
Definition isoformat (d : datetime) : string :=
  zpad 4 (year d) +:+ "-" +:+ zpad 2 (month d) +:+ "-" +:+ zpad 2 (day d)
    +:+ "T" +:+ zpad 2 (hour d) +:+ ":" +:+ zpad 2 (minute d)
    +:+ ":" +:+ zpad 2 (second d)
    +:+ (if microsecond d =? 0 then EmptyString
         else "." +:+ zpad 6 (microsecond d))
    +:+ format_offset (tzinfo d).

(** The ranges [datetime] enforces on its fields. *)
Definition wf (d : datetime) : Prop :=
  1 <= year d <= 9999 /\ 1 <= month d <= 12 /\ 1 <= day d <= 31 /\
  0 <= hour d <= 23 /\ 0 <= minute d <= 59 /\ 0 <= second d <= 59 /\
  0 <= microsecond d <= 999999.

End Datetime.

Import Datetime.

(* ===================================================================== *)
(** * [csv.writer] with the default dialect *)
(* ===================================================================== *)

Module Csv.

(** The characters that force a field into quotes under [QUOTE_MINIMAL]:
    the delimiter, the quote character and those of the line
    terminator. *)
Definition special (c : ascii) : bool :=
  Ascii.eqb c COMMA || Ascii.eqb c DQUOTE || Ascii.eqb c CR || Ascii.eqb c LF.

(** Quote characters are doubled inside a quoted field. *)
Fixpoint escape (s : string) : string :=
  match s with
  | EmptyString => EmptyString
  | String c s' =>
      if Ascii.eqb c DQUOTE then String c (String c (escape s'))
      else String c (escape s')
  end.

Definition field (s : string) : string :=
  if any_char special s then str1 DQUOTE +:+ escape s +:+ str1 DQUOTE
  else s.

Fixpoint join (sep : string) (l : list string) : string :=
  match l with
  | [] => EmptyString
  | [x] => x
  | x :: l' => x +:+ sep +:+ join sep l'
  end.

Definition lineterminator : string := String CR (String LF EmptyString).

(** The text [writerow(fields)] writes.  A row made of one empty field
    is written as a pair of quotes. *)
Definition writerow (fields : list string) : string :=
  match fields with
  | [EmptyString] => str1 DQUOTE +:+ str1 DQUOTE +:+ lineterminator
  | _ => join (str1 COMMA) (map field fields) +:+ lineterminator
  end.

End Csv.

(* ===================================================================== *)
(** * The file store and [os.path] *)
(* ===================================================================== *)

(** The regular files of the file system: path to content.  Directories
    are the operating system's business: whether a directory can be
    created or a file opened is an answer the environment gives
    ([None]: the call goes through; [Some e]: it raises [e]). *)

Module os.

Definition exists_ (fs : gmap string string) (p : string) : bool :=
  bool_decide (is_Some (fs !! p)).

Definition isfile (fs : gmap string string) (p : string) : bool :=
  bool_decide (is_Some (fs !! p)).

(** [os.path.getsize].  [io_stat] is the operating system's answer to the
    [stat] call behind it: [Some e] when the call raises [e], whatever the
    store holds.  When it goes through, the size is that of the file, and
    there is an [OSError] when there is no such file. *)
Definition getsize (io_stat : option exn) (fs : gmap string string)
    (p : string) : result Z :=
  match io_stat with
  | Some e => Raise e
  | None =>
      match fs !! p with
      | Some c => Ok (Z.of_nat (String.length c))
      | None => Raise (Exn OSError ("No such file or directory: " +:+ p))
      end
  end.

Definition is_sep (c : ascii) : bool := Ascii.eqb c (chr 47).

(** [p[:p.rfind('/') + 1]]. *)
Fixpoint head_of (p : string) : string :=
  match p with
  | EmptyString => EmptyString
  | String c p' =>
      if any_char is_sep p' then String c (head_of p')
      else if is_sep c then str1 c else EmptyString
  end.

(** [s.rstrip('/')]. *)
Fixpoint rstrip_sep (s : string) : string :=
  match s with
  | EmptyString => EmptyString
  | String c s' =>
      match rstrip_sep s' with
      | EmptyString => if is_sep c then EmptyString else str1 c
      | r => String c r
      end
  end.

(** [os.path.dirname] (posixpath). *)
Definition dirname (p : string) : string :=
  let head := head_of p in
  if negb (String.eqb head EmptyString) && negb (all_chars is_sep head)
  then rstrip_sep head else head.

(** [os.makedirs(d, exist_ok=True)]: no regular file changes. *)
Definition makedirs (io : option exn) (d : string) : result unit :=
  match io with
  | Some e => Raise e
  | None => Ok tt
  end.

(** [with open(p, mode="a", newline="") as f: f.write(text)]: the file is
    created when missing and never truncated; a call that raises leaves
    the files as they were. *)
Definition append_text (io : option exn) (p text : string)
    (fs : gmap string string) : result (gmap string string) :=
  match io with
  | Some e => Raise e
  | None => Ok (<[p := default EmptyString (fs !! p) +:+ text]> fs)
  end.

End os.

(** [x or "."] on strings. *)
Definition or_dot (x : string) : string :=
  if String.eqb x EmptyString then "." else x.

(* ===================================================================== *)
(** * The values of a parsed configuration *)
(* ===================================================================== *)

(** What [tomllib] builds, and what [load_config] returns: strings,
    integers, floats, booleans, dates and times, lists and dicts with
    string keys. *)
#[warnings="-register-all"]
Inductive value :=
| VStr (s : string)
| VInt (n : Z)
| VFloat (x : spec_float)
| VBool (b : bool)
| VDate (iso : string)
| VList (l : list value)
| VDict (d : gmap string value).

Module Builtins.

(** The white space [int()] skips around an ASCII literal: the space and
    the characters 9 to 13. *)
Definition is_space (c : ascii) : bool :=
  let n := nat_of_ascii c in
  (Nat.eqb n 32 || (Nat.leb 9 n && Nat.leb n 13))%bool.

Fixpoint lstrip (s : string) : string :=
  match s with
  | EmptyString => EmptyString
  | String c s' => if is_space c then lstrip s' else s
  end.

Fixpoint rstrip (s : string) : string :=
  match s with
  | EmptyString => EmptyString
  | String c s' =>
      match rstrip s' with
      | EmptyString => if is_space c then EmptyString else str1 c
      | r => String c r
      end
  end.

Definition digit_val (c : ascii) : Z := Z.of_nat (nat_of_ascii c) - 48.

(** Decimal digits, single underscores allowed between two digits. *)
Fixpoint digits_val (s : string) (acc : Z) (after_digit : bool) : option Z :=
  match s with
  | EmptyString => if after_digit then Some acc else None
  | String c s' =>
      if is_digit c then digits_val s' (10 * acc + digit_val c) true
      else if Ascii.eqb c (chr 95) && after_digit then digits_val s' acc false
      else None
  end.

(** The number of digits of a text. *)
Fixpoint count_digits (s : string) : Z :=
  match s with
  | EmptyString => 0
  | String c s' => (if is_digit c then 1 else 0) + count_digits s'
  end.

(** [sys.int_info.default_max_str_digits]. *)
Definition max_str_digits : Z := 4300.

(** [int(s)] for a [str] of ASCII characters: surrounding white space,
    an optional sign, decimal digits, at most [max_str_digits] of them.
    Both failures are [ValueError]s. *)
Definition int_of_str (s : string) : result Z :=
  let t := rstrip (lstrip s) in
  let parsed :=
    match t with
    | String c t' =>
        if Ascii.eqb c (chr 45) then Z.opp <$> digits_val t' 0 false
        else if Ascii.eqb c (chr 43) then digits_val t' 0 false
        else digits_val t 0 false
    | EmptyString => None
    end in
  match parsed with
  | Some n =>
      if max_str_digits <? count_digits t then
        Raise (Exn ValueError
                 ("Exceeds the limit (4300 digits) for integer string conversion: value has "
                    +:+ str_int (count_digits t)
                    +:+ " digits; use sys.set_int_max_str_digits() to increase the limit"))
      else Ok n
  | None =>
      Raise (Exn ValueError
               ("invalid literal for int() with base 10: '" +:+ s +:+ "'"))
  end.

(** [int(v)]. *)
Definition int (v : value) : result Z :=
  match v with
  | VInt n => Ok n
  | VBool b => Ok (if b then 1 else 0)
  | VFloat x => int_of_float x
  | VStr s => int_of_str s
  | VDate _ | VList _ | VDict _ =>
      Raise (Exn TypeError
               "int() argument must be a string, a bytes-like object or a real number")
  end.

Section Str.
(** [repr] of the values whose text no property below depends on:
    floats (shortest round-trip digits), dates, lists and dicts. *)
Variable repr_other : value -> string.

(** [str(v)]. *)
Definition str (v : value) : string :=
  match v with
  | VStr s => s
  | VInt n => str_int n
  | VBool b => if b then "True" else "False"
  | _ => repr_other v
  end.
End Str.

(** [d.get(k, dflt)] on a dict. *)
Definition dict_get (d : gmap string value) (k : string) (dflt : value) : value :=
  default dflt (d !! k).

(** [v.get(k, dflt)] on any value: only a dict has the method. *)
Definition get (v : value) (k : string) (dflt : value) : result value :=
  match v with
  | VDict d => Ok (dict_get d k dflt)
  | _ => Raise (Exn AttributeError "object has no attribute 'get'")
  end.

(** [v[k]]. *)
Definition getitem (v : value) (k : string) : result value :=
  match v with
  | VDict d =>
      match d !! k with
      | Some x => Ok x
      | None => Raise (Exn KeyError ("'" +:+ k +:+ "'"))
      end
  | _ => Raise (Exn TypeError "object is not subscriptable")
  end.

End Builtins.

Notation "'let*' x ':=' e 'in' k" := (Py.bind e (fun x => k))
  (at level 10, x name, e at level 100, k at level 200).


(* ===================================================================== *)
(** * The measurement *)
(* ===================================================================== *)

Module Speedtest.

(** What the [speedtest] package answers to the calls of lines 63-71: the
    import, the constructor and the choice of a server return or raise;
    the two transfers return a rate, a float, and
    [float(tester.results.ping)] the latency. *)
Record library := Library {
  import_speedtest : option exn;
  new_Speedtest : option exn;
  get_best_server : option exn;
  download : result spec_float;
  upload : result spec_float;
  results_ping : result spec_float;
}.

Definition call (answer : option exn) : result unit :=
  match answer with
  | Some e => Raise e
  | None => Ok tt
  end.

(** Binary64 multiplication and division, rounded to nearest even: the
    [*] and [/] of Python floats. *)
Definition fmul : spec_float -> spec_float -> spec_float := SFmul 53 1024.
Definition fdiv : spec_float -> spec_float -> spec_float := SFdiv 53 1024.

(** The floats [8.0] and [1_000_000.0]. *)
Definition f_8 : spec_float := S754_finite false 4503599627370496 (-49).
Definition f_1e6 : spec_float := S754_finite false 8589934592000000 (-33).

(** [run_speed_test()] (lines 60-76). *)
Definition run_speed_test (lib : library)
    : result (spec_float * spec_float * spec_float) :=
  let* _ := call (import_speedtest lib) in
  let* _ := call (new_Speedtest lib) in
  let* _ := call (get_best_server lib) in
  let* download_bps := download lib in
  let* upload_bps := upload lib in
  let* ping_ms := results_ping lib in
  let download_mbps := fdiv (fmul download_bps f_8) f_1e6 in
  let upload_mbps := fdiv (fmul upload_bps f_8) f_1e6 in
  Ok (download_mbps, upload_mbps, ping_ms).

End Speedtest.

(** Neither NaN nor below zero: [+0.0], a positive finite float or
    [+inf]. *)
Definition nonneg (x : spec_float) : bool :=
  match x with
  | S754_nan => false
  | S754_zero s | S754_infinity s | S754_finite s _ _ => negb s
  end.

(* ===================================================================== *)
(** * The functions of [main.py] *)
(* ===================================================================== *)

Section Program.

(** [tomllib.loads] on the text of a file: the table it holds, or
    [TOMLDecodeError]. *)
Variable tomllib_loads : string -> result (gmap string value).

(** See [Builtins.str]. *)
Variable repr_other : value -> string.

Definition app_dict (interval : Z) (log_file : string) : value :=
  VDict {[ "app" := VDict {[ "interval_seconds" := VInt interval;
                             "log_file" := VStr log_file ]} ]}.

(** [load_config(config_path)] (lines 24-41). *)
Definition load_config (config_path : string) (fs : gmap string string)
    : result value :=
  if negb (os.isfile fs config_path) then
    Ok (app_dict 300 "internet_metrics.csv")
  else
    let* data := tomllib_loads (default EmptyString (fs !! config_path)) in
    let app_cfg := Builtins.dict_get data "app" (VDict ∅) in
    let* i := Builtins.get app_cfg "interval_seconds" (VInt 300) in
    let* interval := Builtins.int i in
    let* l := Builtins.get app_cfg "log_file" (VStr "internet_metrics.csv") in
    let log_file := Builtins.str repr_other l in
    Ok (app_dict interval log_file).

Definition header : list string :=
  ["timestamp_iso"; "download_mbps"; "upload_mbps"; "ping_ms"].

(** [ensure_csv_with_headers(csv_path)] (lines 44-57).  [io_stat],
    [io_mkdir] and [io_open] are the operating system's answers to
    [os.path.getsize], to [os.makedirs] and to opening the file for
    appending. *)
Definition ensure_csv_with_headers (io_stat io_mkdir io_open : option exn)
    (csv_path : string) (fs : gmap string string)
    : result (gmap string string) :=
  let file_exists := os.exists_ fs csv_path in
  let* needs_header :=
    if file_exists then
      match os.getsize io_stat fs csv_path with
      | Ok n => Ok (n =? 0)
      | Raise e => if is_OSError e then Ok true else Raise e
      end
    else Ok true in
  if negb file_exists || needs_header then
    let* _ := os.makedirs io_mkdir (or_dot (os.dirname csv_path)) in
    os.append_text io_open csv_path (Csv.writerow header) fs
  else Ok fs.

(** The row [append_result] hands to the writer (lines 82-87). *)
Definition result_row (when : datetime)
    (download_mbps upload_mbps ping_ms : spec_float) : list string :=
  [ isoformat (replace_tzinfo utc when);
    format_2f download_mbps;
    format_2f upload_mbps;
    format_2f ping_ms ].

(** [append_result(csv_path, when, download_mbps, upload_mbps, ping_ms)]
    (lines 79-87). *)
Definition append_result (io_open : option exn) (csv_path : string)
    (when : datetime) (download_mbps upload_mbps ping_ms : spec_float)
    (fs : gmap string string) : result (gmap string string) :=
  os.append_text io_open csv_path
    (Csv.writerow (result_row when download_mbps upload_mbps ping_ms)) fs.

(* =================================================================== *)
(** ** [main]: the run loop as a machine *)
(* =================================================================== *)

(** Where [main] stands. *)
Inductive pc :=
| Start                 (* handlers registered, line 98 not yet run *)
| LoopTop               (* about to test [while not _STOP_REQUESTED] *)
| InCycle (started : datetime)   (* in the [try] of lines 108-115 *)
| WaitTest (slept : Z)  (* about to test the inner [while] of line 119 *)
| Sleeping (slept : Z)  (* inside [time.sleep] of line 120 *)
| Exited (status : Z)   (* [raise SystemExit(main())] *)
| Crashed (e : exn).    (* an exception left [main] *)

Record state := State {
  at_ : pc;
  _STOP_REQUESTED : bool;
  interval_seconds : Z;
  csv_path : string;
  files : gmap string string;
  stdout : list string;         (* one entry per [print] call *)
  stderr : list string;
  sleeps : list Z;              (* the argument of each [time.sleep] *)
}.

Definition goto (p : pc) (s : state) : state :=
  State p (_STOP_REQUESTED s) (interval_seconds s) (csv_path s) (files s)
        (stdout s) (stderr s) (sleeps s).

Definition set_files (fs : gmap string string) (s : state) : state :=
  State (at_ s) (_STOP_REQUESTED s) (interval_seconds s) (csv_path s) fs
        (stdout s) (stderr s) (sleeps s).

Definition set_config (interval : Z) (path : string) (s : state) : state :=
  State (at_ s) (_STOP_REQUESTED s) interval path (files s)
        (stdout s) (stderr s) (sleeps s).

(** [print(line)]. *)
Definition print (line : string) (s : state) : state :=
  State (at_ s) (_STOP_REQUESTED s) (interval_seconds s) (csv_path s) (files s)
        (stdout s ++ [line]) (stderr s) (sleeps s).

(** [print(line, file=sys.stderr)]. *)
Definition eprint (line : string) (s : state) : state :=
  State (at_ s) (_STOP_REQUESTED s) (interval_seconds s) (csv_path s) (files s)
        (stdout s) (stderr s ++ [line]) (sleeps s).

(** [time.sleep(d)] is entered. *)
Definition sleep (d : Z) (s : state) : state :=
  State (at_ s) (_STOP_REQUESTED s) (interval_seconds s) (csv_path s) (files s)
        (stdout s) (stderr s) (sleeps s ++ [d]).

(** [_handle_stop_signal(signum, frame)] (lines 19-21). *)
Definition _handle_stop_signal (signum : Z) (s : state) : state :=
  State (at_ s) true (interval_seconds s) (csv_path s) (files s)
        (stdout s) (stderr s) (sleeps s).

(** What the environment answers while [main] takes one step. *)
Record answers := Answers {
  utcnow : datetime;            (* [datetime.utcnow()] *)
  run_speed_test : result (spec_float * spec_float * spec_float);
                                (* the outcome of [run_speed_test()] *)
  io_stat : option exn;         (* [os.path.getsize] *)
  io_mkdir : option exn;        (* [os.makedirs] *)
  io_open : option exn;         (* [open(csv_path, mode="a")] and the write *)
}.

(** The process at rest before [main] runs line 98. *)
Definition initial (fs : gmap string string) : state :=
  State Start false 0 EmptyString fs [] [] [].

(** Lines 98-104. *)
Definition startup (a : answers) (s : state) : state :=
  let r :=
    let* cfg := load_config "config.toml" (files s) in
    let* app := Builtins.getitem cfg "app" in
    let* i := Builtins.getitem app "interval_seconds" in
    let* interval := Builtins.int i in
    let* app' := Builtins.getitem cfg "app" in
    let* l := Builtins.getitem app' "log_file" in
    let path := Builtins.str repr_other l in
    let* fs := ensure_csv_with_headers (io_stat a) (io_mkdir a) (io_open a)
                 path (files s) in
    Ok (interval, path, fs) in
  match r with
  | Raise e => goto (Crashed e) s
  | Ok (interval, path, fs) =>
      goto LoopTop
        (print ("[isp-service-checker] Interval: " +:+ str_int interval +:+ " seconds")
           (print ("[isp-service-checker] Logging to: " +:+ path)
              (set_files fs (set_config interval path s))))
  end.

(** The [try] block of one cycle, lines 108-115. *)
Definition cycle (a : answers) (started : datetime) (s : state) : state :=
  let r :=
    let* m := run_speed_test a in
    let '(dl, ul, ping) := m in
    let* fs := append_result (io_open a) (csv_path s) started dl ul ping (files s) in
    Ok (print ("[" +:+ isoformat started +:+ "Z] Download: " +:+ format_2f dl
                 +:+ " Mbps | Upload: " +:+ format_2f ul
                 +:+ " Mbps | Ping: " +:+ format_2f ping +:+ " ms")
              (set_files fs s)) in
  match r with
  | Ok s' => s'
  | Raise exc =>
      if is_Exception exc then
        eprint ("[isp-service-checker] Error during speed test: " +:+ exn_str exc) s
      else goto (Crashed exc) s
  end.

(** One step of [main]. *)
Definition step (a : answers) (s : state) : state :=
  match at_ s with
  | Start => startup a s
  | LoopTop =>
      if negb (_STOP_REQUESTED s) then goto (InCycle (utcnow a)) s
      else goto (Exited 0) (print "[isp-service-checker] Stopped." s)
  | InCycle started =>
      let s' := cycle a started s in
      match at_ s' with
      | Crashed _ => s'
      | _ => goto (WaitTest 0) s'
      end
  | WaitTest slept =>
      if (slept <? interval_seconds s) && negb (_STOP_REQUESTED s) then
        goto (Sleeping slept) (sleep (Z.min 1 (interval_seconds s - slept)) s)
      else goto LoopTop s
  | Sleeping slept => goto (WaitTest (slept + 1)) s
  | Exited _ | Crashed _ => s
  end.

(** The process is gone. *)
Definition halted (s : state) : bool :=
  match at_ s with
  | Exited _ | Crashed _ => true
  | _ => false
  end.

(** How a process ends, as its parent sees it: with an exit status, or
    killed by a signal. *)
Inductive ending :=
| Status (n : Z)
| KilledBy (signum : Z).

(** How the interpreter ends when the exception [e] leaves the program:
    with the status a [SystemExit] carries; killed by SIGINT (signal 2),
    which the interpreter sends to itself after an unhandled
    [KeyboardInterrupt]; with status 1, after the traceback, for an
    [Exception]. *)
Definition ending_of_exception (e : exn) : ending :=
  match exn_cls e with
  | SystemExit n => Status n
  | KeyboardInterrupt => KilledBy 2
  | _ => Status 1
  end.

(** How the process has ended, if it has: line 128 raises [SystemExit]
    with the value [main] returned, and an exception that left [main]
    leaves the program. *)
Definition exit_status (s : state) : option ending :=
  match at_ s with
  | Exited n => Some (Status n)
  | Crashed e => Some (ending_of_exception e)
  | _ => None
  end.

(** What can happen next: a stop signal is delivered, or [main] moves. *)
Inductive event :=
| Signal (signum : Z)
| Run (a : answers).

Definition react (s : state) (ev : event) : state :=
  match ev with
  | Signal n => if halted s then s else _handle_stop_signal n s
  | Run a => step a s
  end.

Definition run (evs : list event) (s : state) : state :=
  fold_left react evs s.

(* =================================================================== *)
(** ** Derived notions used in the statements *)
(* =================================================================== *)

(** The header record as it stands in the file. *)
Definition header_line : string :=
  "timestamp_iso,download_mbps,upload_mbps,ping_ms" +:+ Csv.lineterminator.

(** The text of a file, empty when there is no such file. *)
Definition content (fs : gmap string string) (p : string) : string :=
  default EmptyString (fs !! p).

(** Store initialization called once per entry of [ios], each call with
    its own answers from the operating system. *)
Fixpoint initialize_repeatedly
    (ios : list (option exn * option exn * option exn))
    (csv_path : string) (fs : gmap string string)
    : result (gmap string string) :=
  match ios with
  | [] => Ok fs
  | (io_stat, io_mkdir, io_open) :: rest =>
      let* fs' := ensure_csv_with_headers io_stat io_mkdir io_open csv_path fs in
      initialize_repeatedly rest csv_path fs'
  end.

(** Every call of the list can read the size of the destination. *)
Definition sizes_readable (ios : list (option exn * option exn * option exn))
    : Prop :=
  Forall (fun io => io.1.1 = None) ios.

(** What lines 45-51 decide: whether a header is needed, or the error
    that leaves the [try] of line 48. *)
Definition header_needed (io_stat : option exn) (csv_path : string)
    (fs : gmap string string) : result bool :=
  if os.exists_ fs csv_path then
    match io_stat with
    | Some e => if is_OSError e then Ok true else Raise e
    | None => Ok (String.eqb (content fs csv_path) EmptyString)
    end
  else Ok true.

(** The first call of store initialization that the operating system
    refuses, if any: directory creation comes before the open. *)
Definition first_fault (io_mkdir io_open : option exn) : option exn :=
  match io_mkdir with
  | Some e => Some e
  | None => io_open
  end.

(** A character that [csv.writer] never quotes. *)
Definition plain (c : ascii) : bool := negb (Csv.special c).

(** A text with exactly two decimal places: an optional minus sign, at
    least one digit, a point, two digits. *)
Definition two_decimals (t : string) : Prop :=
  exists (neg : bool) (whole : string) (d1 d2 : ascii),
    t = sign_str neg +:+ whole +:+ "." +:+ String d1 (String d2 EmptyString) /\
    whole <> EmptyString /\
    all_chars is_digit whole = true /\
    is_digit d1 = true /\ is_digit d2 = true.

Definition ends_with (suffix s : string) : Prop :=
  exists front, s = front +:+ suffix.

(** A text made of exactly [k] digits. *)
Definition digits_of_width (k : nat) (t : string) : Prop :=
  all_chars is_digit t = true /\ String.length t = k.

(** The ISO-8601 text of a UTC instant, to the second or to the
    microsecond: [YYYY-MM-DDTHH:MM:SS+00:00], or the same with six
    fractional digits after the seconds. *)
Definition iso_utc_text (t : string) : Prop :=
  exists Y M D h m s frac,
    t = Y +:+ "-" +:+ M +:+ "-" +:+ D +:+ "T" +:+ h +:+ ":" +:+ m +:+ ":" +:+ s
          +:+ frac +:+ "+00:00" /\
    digits_of_width 4 Y /\ digits_of_width 2 M /\ digits_of_width 2 D /\
    digits_of_width 2 h /\ digits_of_width 2 m /\ digits_of_width 2 s /\
    (frac = EmptyString \/ exists f, frac = "." +:+ f /\ digits_of_width 6 f).

(** Two digits and nothing else. *)
Definition is_two_digits (t : string) : bool :=
  match t with
  | String d1 (String d2 EmptyString) => is_digit d1 && is_digit d2
  | _ => false
  end.

(** The text [append_result] writes for a sample. *)
Definition record_line (when : datetime) (dl ul ping : spec_float) : string :=
  isoformat (replace_tzinfo utc when) +:+ "," +:+ format_2f dl +:+ ","
    +:+ format_2f ul +:+ "," +:+ format_2f ping +:+ Csv.lineterminator.

(** Once the flag is true, the wait is over: what is left of the loop is
    the end of the sleep in progress, the test of the inner loop, the test
    of the outer loop and the exit. *)
Definition steps_to_exit (s : state) : option nat :=
  match at_ s with
  | Sleeping _ => Some 3%nat
  | WaitTest _ => Some 2%nat
  | LoopTop => Some 1%nat
  | Exited 0 => Some 0%nat
  | _ => None
  end.

(** How many times [main] moves in a list of events. *)
Fixpoint runs (evs : list event) : nat :=
  match evs with
  | [] => O
  | Signal _ :: evs' => runs evs'
  | Run _ :: evs' => S (runs evs')
  end.

(** The error a cycle ends with, if any: the one [run_speed_test] raises,
    else the one raised while the sample is appended. *)
Definition cycle_error (a : answers) : option exn :=
  match run_speed_test a with
  | Raise e => Some e
  | Ok _ => io_open a
  end.

(** The diagnostic of line 115. *)
Definition diagnostic (e : exn) : string :=
  "[isp-service-checker] Error during speed test: " +:+ exn_str e.


(** [fs'] holds every file of [fs], each with its former text at the
    front: nothing was removed, truncated or rewritten. *)
Definition extends (fs fs' : gmap string string) : Prop :=
  forall p, (exists suffix, content fs' p = content fs p +:+ suffix) /\
            (is_Some (fs !! p) -> is_Some (fs' !! p)).

(** [fs'] differs from [fs] at most in the file [p]. *)
Definition touches_only (p : string) (fs fs' : gmap string string) : Prop :=
  forall q, q <> p -> fs' !! q = fs !! q.

(** The process is past its startup. *)
Definition started_up (s : state) : bool :=
  match at_ s with
  | Start => false
  | _ => true
  end.


(** A stop signal is among the events. *)
Fixpoint has_signal (evs : list event) : bool :=
  match evs with
  | [] => false
  | Signal _ :: _ => true
  | Run _ :: evs' => has_signal evs'
  end.

(** The status line of line 112. *)
Definition status_line (started : datetime) (dl ul ping : spec_float) : string :=
  "[" +:+ isoformat started +:+ "Z] Download: " +:+ format_2f dl
      +:+ " Mbps | Upload: " +:+ format_2f ul
      +:+ " Mbps | Ping: " +:+ format_2f ping +:+ " ms".


(** How often a character occurs in a text. *)
Fixpoint count_char (c : ascii) (s : string) : nat :=
  match s with
  | EmptyString => O
  | String x s' => ((if Ascii.eqb x c then 1 else 0) + count_char c s')%nat
  end.

(** The number of line feeds of a text: the number of records of a log
    whose fields hold no line break. *)
Definition rows (text : string) : nat := count_char LF text.

(** 1 once the farewell has been printed, else 0. *)
Definition farewell (s : state) : nat :=
  match at_ s with
  | Exited _ => 1%nat
  | _ => 0%nat
  end.

(** A sample as [append_result] takes it. *)
Definition sample : Type := datetime * spec_float * spec_float * spec_float.

Definition sample_line (x : sample) : string :=
  let '(when, dl, ul, ping) := x in record_line when dl ul ping.

(** [append_result] called on each sample in turn, the operating system
    letting every call through. *)
Fixpoint append_all (samples : list sample) (csv_path : string)
    (fs : gmap string string) : result (gmap string string) :=
  match samples with
  | [] => Ok fs
  | (when, dl, ul, ping) :: rest =>
      let* fs' := append_result None csv_path when dl ul ping fs in
      append_all rest csv_path fs'
  end.

Fixpoint concat_lines (l : list string) : string :=
  match l with
  | [] => EmptyString
  | x :: l' => x +:+ concat_lines l'
  end.

(** The numbers of the sample are what [run_speed_test] returned in one
    of the moves of [evs]. *)
Definition measured_in (evs : list event) (x : sample) : Prop :=
  let '(_, dl, ul, ping) := x in
  exists a, In (Run a) evs /\ run_speed_test a = Ok (dl, ul, ping).

(** The instant of the sample is what [datetime.utcnow()] returned in one
    of the moves of [evs]. *)
Definition begun_in (evs : list event) (x : sample) : Prop :=
  let '(when, _, _, _) := x in
  exists a, In (Run a) evs /\ utcnow a = when.

(** The instant of the sample is the start of the cycle the process is
    in. *)
Definition begun_at (s : state) (x : sample) : Prop :=
  let '(when, _, _, _) := x in at_ s = InCycle when.

Definition finite_sample (x : sample) : bool :=
  let '(_, dl, ul, ping) := x in
  is_finite dl && is_finite ul && is_finite ping.

(** A line of four fields: a text that ends in the UTC offset marker and
    needs no quoting, then three numbers with two decimal places. *)
Definition timed_record (line : string) : Prop :=
  exists ts d u p,
    line = ts +:+ "," +:+ d +:+ "," +:+ u +:+ "," +:+ p +:+ Csv.lineterminator /\
    ends_with "+00:00" ts /\ all_chars plain ts = true /\
    two_decimals d /\ two_decimals u /\ two_decimals p.

(* =================================================================== *)
(** ** Concrete inputs for the examples *)
(* =================================================================== *)


(** A configuration file whose interval is the string [abc]. *)
Definition bad_interval_doc : string :=
  "[app]" +:+ str1 LF +:+ "interval_seconds = "
    +:+ str1 DQUOTE +:+ "abc" +:+ str1 DQUOTE +:+ str1 LF.

Definition bad_interval_table : gmap string value :=
  {[ "app" := VDict {[ "interval_seconds" := VStr "abc" ]} ]}.

(** A configuration file with a quoted interval, and a key and a section
    that the loader does not know. *)
Definition sample_doc : string :=
  "[app]" +:+ str1 LF +:+ "interval_seconds = "
    +:+ str1 DQUOTE +:+ "60" +:+ str1 DQUOTE +:+ str1 LF
    +:+ "color = true" +:+ str1 LF +:+ "[extra]" +:+ str1 LF +:+ "k = 1" +:+ str1 LF.

Definition sample_table : gmap string value :=
  {[ "app" := VDict {[ "interval_seconds" := VStr "60"; "color" := VBool true ]};
     "extra" := VDict {[ "k" := VInt 1 ]} ]}.

(** A configuration file that asks for no wait at all. *)
Definition zero_interval_doc : string :=
  "[app]" +:+ str1 LF +:+ "interval_seconds = 0" +:+ str1 LF.

Definition zero_interval_table : gmap string value :=
  {[ "app" := VDict {[ "interval_seconds" := VInt 0 ]} ]}.

(** [tomllib.loads] on the documents above. *)
Definition loads_examples (text : string) : result (gmap string value) :=
  if String.eqb text bad_interval_doc then Ok bad_interval_table
  else if String.eqb text sample_doc then Ok sample_table
  else if String.eqb text zero_interval_doc then Ok zero_interval_table
  else Raise (Exn TOMLDecodeError "Invalid statement").

Definition repr_examples (v : value) : string := "<repr>".


(** The floats nearest to 50.12, 9.87 and 14.3. *)
Definition float_50_12 : spec_float := S754_finite false 7053762916369039 (-47).
Definition float_9_87 : spec_float := S754_finite false 5556316040268349 (-49).
Definition float_14_3 : spec_float := S754_finite false 4025092166962381 (-48).

(** 4 November 2026, 20:21:05, naive, as [datetime.utcnow()] gives it. *)
Definition sample_when : datetime :=
  {| year := 2026; month := 11; day := 4; hour := 20; minute := 21;
     second := 5; microsecond := 0; tzinfo := None |}.

(** A log that holds its header and nothing else. *)
Definition fresh_log : gmap string string :=
  {[ "internet_metrics.csv" := header_line ]}.

(** A process in its first cycle, with a two-second interval and a log
    that holds its header. *)
Definition in_first_cycle : state :=
  State (InCycle sample_when) false 2 "internet_metrics.csv" fresh_log [] [] [].

(** A process asleep in the first second of a five-minute wait. *)
Definition asleep : state :=
  State (Sleeping 0) false 300 "internet_metrics.csv" fresh_log [] [] [1].


(** The environment's answers: a measurement that succeeds, one that
    fails, and a disk that cannot be written. *)
Definition measured : answers :=
  Answers sample_when (Ok (float_50_12, float_9_87, float_14_3)) None None None.

Definition unreachable_server : answers :=
  Answers sample_when (Raise (Exn SpeedtestException "Unable to connect to servers"))
          None None None.

Definition read_only_disk : answers :=
  Answers sample_when (Ok (float_50_12, float_9_87, float_14_3)) None
          (Some (Exn OSError "Read-only file system"))
          (Some (Exn OSError "Read-only file system")).

(** A machine on which the size of the log cannot be read, while the
    file can be written. *)
Definition unreadable_size : answers :=
  Answers sample_when (Ok (float_50_12, float_9_87, float_14_3))
          (Some (Exn OSError "Input/output error")) None None.

(** The scenario of the specification: an interval of two seconds, a
    measurement of (50.12, 9.87, 14.3) in the first and third cycles, a
    failure in the second, a stop signal after the third wait.  A cycle
    is seven moves: the loop test, the body, two sleeps with their tests
    and the test that ends the wait. *)
Definition scenario : list event :=
  repeat (Run measured) 7 ++ repeat (Run unreachable_server) 7
    ++ repeat (Run measured) 7 ++ [Signal 2; Run measured].

Definition scenario_start : state :=
  State LoopTop false 2 "internet_metrics.csv" fresh_log [] [] [].


(** A measurement that ends in [SystemExit], which is no [Exception]. *)
Definition aborted : answers :=
  Answers sample_when (Raise (Exn (SystemExit 2) "2")) None None None.

(** A process at the loop test, about to begin a cycle. *)
Definition at_loop_test : state :=
  State LoopTop false 2 "internet_metrics.csv" fresh_log
        ["[isp-service-checker] Logging to: internet_metrics.csv";
         "[isp-service-checker] Interval: 2 seconds"] [] [].

(** A configuration file that is no TOML. *)
Definition broken_fs : gmap string string :=
  {[ "config.toml" := "interval_seconds 60" ]}.

(** A library that measures 6 265 000 and 9 634 567.891 bits per second
    and a latency of 14.3 ms. *)
Definition float_6265000 : spec_float := S754_finite false 6726992527360000 (-30).
Definition float_9634567_891 : spec_float :=
  S754_finite false 5172519250367087 (-29).
Definition float_77_07 : spec_float := S754_finite false 5423779545472919 (-46).

Definition good_line : Speedtest.library :=
  Speedtest.Library None None None
    (Ok float_6265000) (Ok float_9634567_891) (Ok float_14_3).

(* ===================================================================== *)
(** * Facts about the printed text *)
(* ===================================================================== *)

Lemma append_assoc (a b c : string) : (a +:+ b) +:+ c = a +:+ (b +:+ c).
Proof. induction a as [|x a IH]; simpl; [reflexivity | now rewrite IH]. Qed.

Lemma append_empty_r (a : string) : a +:+ EmptyString = a.
Proof. induction a as [|x a IH]; simpl; [reflexivity | now rewrite IH]. Qed.

Lemma all_chars_app p (a b : string) :
  all_chars p (a +:+ b) = all_chars p a && all_chars p b.
Proof.
  induction a as [|x a IH]; simpl; [reflexivity|].
  rewrite IH. apply andb_assoc.
Qed.

Lemma all_chars_impl (p q : ascii -> bool) s :
  (forall c, p c = true -> q c = true) ->
  all_chars p s = true -> all_chars q s = true.
Proof.
  intros Hpq. induction s as [|c s IH]; simpl; [reflexivity|].
  rewrite !andb_true_iff. intros [Hc Hs]. auto.
Qed.

Lemma any_char_all_chars p s :
  any_char p s = negb (all_chars (fun c => negb (p c)) s).
Proof.
  induction s as [|c s IH]; simpl; [reflexivity|].
  rewrite IH, negb_andb, negb_involutive. reflexivity.
Qed.

Lemma digit_is_plain c : is_digit c = true -> plain c = true.
Proof.
  destruct c as [[] [] [] [] [] [] [] []]; vm_compute; congruence.
Qed.

Lemma digit_char_is_digit d : 0 <= d < 10 -> is_digit (digit_char d) = true.
Proof.
  intros H.
  assert (d = 0 \/ d = 1 \/ d = 2 \/ d = 3 \/ d = 4 \/
          d = 5 \/ d = 6 \/ d = 7 \/ d = 8 \/ d = 9) as Hd by lia.
  repeat (destruct Hd as [->|Hd]; [reflexivity|]). subst d. reflexivity.
Qed.

(** The digits [dec_digits] pushes in front of [acc]. *)
Lemma dec_digits_shape fuel : forall n acc,
  exists ds, dec_digits fuel n acc = ds +:+ acc /\
             all_chars is_digit ds = true /\
             (fuel <> O -> ds <> EmptyString).
Proof.
  induction fuel as [|k IH]; intros n acc; simpl.
  - exists EmptyString. repeat split; congruence.
  - assert (is_digit (digit_char (n mod 10)) = true) as Hd
      by (apply digit_char_is_digit, Z.mod_pos_bound; lia).
    destruct (n / 10 =? 0).
    + exists (str1 (digit_char (n mod 10))). simpl. rewrite Hd.
      repeat split; discriminate.
    + destruct (IH (n / 10) (String (digit_char (n mod 10)) acc))
        as (ds & -> & Hds & _).
      exists (ds +:+ str1 (digit_char (n mod 10))).
      rewrite append_assoc, all_chars_app, Hds. simpl. rewrite Hd.
      repeat split. destruct ds; discriminate.
Qed.

Lemma dec_digits_only n : all_chars is_digit (dec n) = true.
Proof.
  unfold dec. destruct (dec_digits_shape (S (Z.to_nat (Z.log2 n))) n EmptyString)
    as (ds & -> & H & _).
  now rewrite append_empty_r.
Qed.

Lemma dec_nonempty n : dec n <> EmptyString.
Proof.
  unfold dec. destruct (dec_digits_shape (S (Z.to_nat (Z.log2 n))) n EmptyString)
    as (ds & -> & _ & H).
  rewrite append_empty_r. apply H. discriminate.
Qed.

Lemma zeros_digits_only k : all_chars is_digit (zeros k) = true.
Proof. induction k as [|k IH]; simpl; [reflexivity | exact IH]. Qed.

Lemma zpad_digits_only w n : all_chars is_digit (zpad w n) = true.
Proof.
  unfold zpad. rewrite all_chars_app, zeros_digits_only, dec_digits_only.
  reflexivity.
Qed.

(** [%02d] of a number below one hundred is two digits. *)
Lemma zpad2_two_digits k : 0 <= k < 100 -> is_two_digits (zpad 2 k) = true.
Proof.
  intros H.
  assert (forallb (fun i => is_two_digits (zpad 2 (Z.of_nat i))) (seq 0 100) = true)
    as Hall by (vm_compute; reflexivity).
  rewrite forallb_forall in Hall.
  specialize (Hall (Z.to_nat k)). rewrite Z2Nat.id in Hall by lia.
  apply Hall, in_seq. lia.
Qed.

Lemma length_append (a b : string) :
  String.length (a +:+ b) = (String.length a + String.length b)%nat.
Proof. induction a as [|x a IH]; simpl; [reflexivity | now rewrite IH]. Qed.

Lemma length_zeros k : String.length (zeros k) = k.
Proof. induction k as [|k IH]; simpl; [reflexivity | now rewrite IH]. Qed.

(** A number below [10^k] has at most [k] digits. *)
Lemma dec_digits_length fuel : forall n acc k,
  (1 <= k)%nat -> 0 <= n < 10 ^ Z.of_nat k ->
  (String.length (dec_digits fuel n acc) <= k + String.length acc)%nat.
Proof.
  induction fuel as [|fuel IH]; intros n acc k Hk Hn; simpl; [lia|].
  destruct (n / 10 =? 0) eqn:E; [simpl; lia|].
  apply Z.eqb_neq in E.
  destruct k as [|[|k]]; [lia | |].
  - exfalso. apply E, Z.div_small. change (10 ^ Z.of_nat 1) with 10 in Hn. lia.
  - assert (0 <= n / 10 < 10 ^ Z.of_nat (S k)) as Hq.
    { split; [apply Z.div_pos; lia|].
      apply Z.div_lt_upper_bound; [lia|].
      rewrite <- Z.pow_succ_r by lia.
      replace (Z.succ (Z.of_nat (S k))) with (Z.of_nat (S (S k))) by lia.
      lia. }
    specialize (IH (n / 10) (String (digit_char (n mod 10)) acc) (S k)
                   ltac:(lia) Hq).
    simpl in IH. lia.
Qed.

(** [%0wd] of a number below [10^w] is exactly [w] digits. *)
Lemma zpad_width w n :
  (1 <= w)%nat -> 0 <= n < 10 ^ Z.of_nat w -> digits_of_width w (zpad w n).
Proof.
  intros Hw Hn. split; [apply zpad_digits_only|].
  unfold zpad. rewrite length_append, length_zeros.
  pose proof (dec_digits_length (S (Z.to_nat (Z.log2 n))) n EmptyString w Hw Hn)
    as Hlen.
  fold (dec n) in Hlen. simpl in Hlen. lia.
Qed.

Lemma sign_str_plain neg : all_chars plain (sign_str neg) = true.
Proof. destruct neg; reflexivity. Qed.

Lemma digits_plain s : all_chars is_digit s = true -> all_chars plain s = true.
Proof. apply all_chars_impl, digit_is_plain. Qed.

(** No text [.2f] produces needs quoting in a CSV row. *)
Lemma format_2f_plain x : all_chars plain (format_2f x) = true.
Proof.
  destruct x as [s|s| |s m e]; cbn [format_2f].
  - destruct s; reflexivity.
  - destruct s; reflexivity.
  - reflexivity.
  - rewrite !all_chars_app, sign_str_plain.
    rewrite (digits_plain _ (dec_digits_only _)).
    rewrite (digits_plain _ (zpad_digits_only _ _)). reflexivity.
Qed.

(** A finite float is printed with exactly two decimal places. *)
Lemma format_2f_two_decimals x :
  is_finite x = true -> two_decimals (format_2f x).
Proof.
  destruct x as [s|s| |s m e]; cbn [format_2f is_finite];
    try discriminate; intros _.
  - exists s, "0", (digit_char 0), (digit_char 0).
    repeat split; discriminate.
  - pose proof (zpad2_two_digits (hundredths m e mod 100)) as H2.
    specialize (H2 ltac:(apply Z.mod_pos_bound; lia)).
    destruct (zpad 2 (hundredths m e mod 100)) as [|d1 [|d2 [|? ?]]];
      try discriminate H2.
    simpl in H2. apply andb_true_iff in H2 as [H1 H2].
    exists s, (dec (hundredths m e / 100)), d1, d2.
    repeat split; auto using dec_nonempty, dec_digits_only.
Qed.

Lemma format_offset_utc : format_offset utc = "+00:00".
Proof. reflexivity. Qed.

(** The ISO text of a UTC instant: date, [T], time, the offset marker
    [+00:00] at the end, and no character that needs quoting. *)
Lemma isoformat_utc when :
  ends_with "+00:00" (isoformat (replace_tzinfo utc when)) /\
  all_chars plain (isoformat (replace_tzinfo utc when)) = true.
Proof.
  unfold isoformat; cbn [tzinfo replace_tzinfo year month day hour minute
                         second microsecond].
  rewrite format_offset_utc. split.
  - unfold ends_with. rewrite <- !append_assoc. eexists. reflexivity.
  - rewrite !all_chars_app.
    rewrite !(digits_plain _ (zpad_digits_only _ _)).
    destruct (microsecond when =? 0); [reflexivity|].
    rewrite all_chars_app, (digits_plain _ (zpad_digits_only _ _)).
    reflexivity.
Qed.

(** The ISO text of a UTC instant has the shape
    [YYYY-MM-DDTHH:MM:SS+00:00], with six more digits when there are
    microseconds. *)
Lemma isoformat_utc_shape when :
  Datetime.wf when -> iso_utc_text (isoformat (replace_tzinfo utc when)).
Proof.
  intros (Hy & Hmo & Hd & Hh & Hmi & Hs & Hus).
  unfold isoformat; cbn [tzinfo replace_tzinfo year month day hour minute
                         second microsecond].
  rewrite format_offset_utc.
  exists (zpad 4 (year when)), (zpad 2 (month when)), (zpad 2 (day when)),
         (zpad 2 (hour when)), (zpad 2 (minute when)), (zpad 2 (second when)),
         (if microsecond when =? 0 then EmptyString
          else "." +:+ zpad 6 (microsecond when)).
  split; [reflexivity|].
  repeat (split; [apply zpad_width; [lia | cbn; lia]|]).
  destruct (microsecond when =? 0); [left; reflexivity|].
  right. eexists. split; [reflexivity|]. apply zpad_width; [lia | cbn; lia].
Qed.

Lemma field_plain s : all_chars plain s = true -> Csv.field s = s.
Proof.
  intros H. unfold Csv.field. rewrite any_char_all_chars.
  unfold plain in H. rewrite H. reflexivity.
Qed.

(** A row of four plain fields is written as the fields, comma-separated,
    and the line terminator. *)
Lemma writerow_four_plain a b c d :
  all_chars plain a = true -> all_chars plain b = true ->
  all_chars plain c = true -> all_chars plain d = true ->
  Csv.writerow [a; b; c; d] =
    a +:+ "," +:+ b +:+ "," +:+ c +:+ "," +:+ d +:+ Csv.lineterminator.
Proof.
  intros Ha Hb Hc Hd. unfold Csv.writerow.
  cbn [map Csv.join]. rewrite !field_plain by assumption.
  change (str1 COMMA) with ",".
  destruct a; rewrite ?append_assoc; reflexivity.
Qed.

(* ===================================================================== *)
(** * The number model agrees with itself *)
(* ===================================================================== *)

(** Rounding to the nearest integer: the result is within half a unit. *)
Lemma round_half_even_nearest num den :
  0 < den -> 2 * Z.abs (round_half_even num den * den - num) <= den.
Proof.
  intros Hden. unfold round_half_even.
  pose proof (Z.div_mod num den ltac:(lia)) as Hdm.
  pose proof (Z.mod_pos_bound num den Hden) as Hr.
  destruct (2 * (num mod den) <? den) eqn:E1; [apply Z.ltb_lt in E1; nia|].
  apply Z.ltb_ge in E1.
  destruct (den <? 2 * (num mod den)) eqn:E2; [apply Z.ltb_lt in E2; nia|].
  apply Z.ltb_ge in E2.
  destruct (Z.even (num / den)); nia.
Qed.

(** The digits [.2f] prints are those of the hundredth nearest to the
    float. *)
Lemma hundredths_nearest m e :
  (0 <= e -> hundredths m e = Z.pos m * 2 ^ e * 100) /\
  (e < 0 ->
   2 * Z.abs (hundredths m e * 2 ^ (- e) - Z.pos m * 100) <= 2 ^ (- e)).
Proof.
  unfold hundredths. split; intros He.
  - rewrite (proj2 (Z.leb_le 0 e) He). lia.
  - rewrite (proj2 (Z.leb_gt 0 e) He).
    apply round_half_even_nearest, Z.pow_pos_nonneg; lia.
Qed.

Lemma digit_val_digit_char d :
  0 <= d < 10 -> Builtins.digit_val (digit_char d) = d.
Proof.
  intros H.
  assert (d = 0 \/ d = 1 \/ d = 2 \/ d = 3 \/ d = 4 \/
          d = 5 \/ d = 6 \/ d = 7 \/ d = 8 \/ d = 9) as Hd by lia.
  repeat (destruct Hd as [->|Hd]; [reflexivity|]). subst d. reflexivity.
Qed.

Lemma log2_tenth n : 10 <= n -> Z.log2 (n / 10) < Z.log2 n.
Proof.
  intros Hn.
  assert (Z.log2 (n / 2) = Z.log2 n - 1) as H2.
  { replace (n / 2) with (Z.shiftr n 1)
      by (rewrite Z.shiftr_div_pow2 by lia; reflexivity).
    rewrite Z.log2_shiftr by lia.
    pose proof (Z.log2_le_mono 2 n ltac:(lia)) as Hm.
    change (Z.log2 2) with 1 in Hm. lia. }
  pose proof (Z.log2_le_mono (n / 10) (n / 2)
                ltac:(apply Z.div_le_compat_l; lia)).
  lia.
Qed.

(** Reading back the digits [dec_digits] wrote gives the number. *)
Lemma digits_val_dec_digits fuel : forall n rest,
  0 <= n -> (Z.to_nat (Z.log2 n) < fuel)%nat ->
  exists k, 0 <= k /\ forall acc b,
    Builtins.digits_val (dec_digits fuel n rest) acc b =
    Builtins.digits_val rest (acc * 10 ^ k + n) true.
Proof.
  induction fuel as [|fuel IH]; intros n rest Hn Hfuel; [lia|].
  pose proof (Z.mod_pos_bound n 10 ltac:(lia)) as Hd.
  pose proof (Z.div_mod n 10 ltac:(lia)) as Hdm.
  cbn [dec_digits]. destruct (n / 10 =? 0) eqn:E.
  - apply Z.eqb_eq in E. exists 1. split; [lia|]. intros acc b.
    cbn [Builtins.digits_val].
    rewrite digit_char_is_digit, digit_val_digit_char by assumption.
    f_equal. lia.
  - apply Z.eqb_neq in E.
    assert (10 <= n) as H10.
    { destruct (Z.lt_ge_cases n 10) as [Hlt|]; [|assumption].
      exfalso. apply E, Z.div_small. lia. }
    pose proof (log2_tenth n H10) as Hlog.
    pose proof (Z.log2_nonneg (n / 10)) as Hnn.
    destruct (IH (n / 10) (String (digit_char (n mod 10)) rest)
                 ltac:(apply Z.div_pos; lia) ltac:(lia)) as (k & Hk & IHk).
    exists (Z.succ k). split; [lia|]. intros acc b.
    rewrite IHk. cbn [Builtins.digits_val].
    rewrite digit_char_is_digit, digit_val_digit_char by assumption.
    f_equal. rewrite Z.pow_succ_r by assumption. lia.
Qed.

Lemma digits_val_dec n : 0 <= n -> Builtins.digits_val (dec n) 0 false = Some n.
Proof.
  intros Hn. unfold dec.
  destruct (digits_val_dec_digits (S (Z.to_nat (Z.log2 n))) n EmptyString Hn
              ltac:(lia)) as (k & _ & H).
  rewrite H. reflexivity.
Qed.

Lemma digit_is_no_space c : is_digit c = true -> Builtins.is_space c = false.
Proof. destruct c as [[] [] [] [] [] [] [] []]; vm_compute; congruence. Qed.

Lemma digit_is_no_sign c :
  is_digit c = true ->
  Ascii.eqb c (chr 45) = false /\ Ascii.eqb c (chr 43) = false.
Proof. destruct c as [[] [] [] [] [] [] [] []]; vm_compute; intuition congruence. Qed.

Lemma lstrip_no_space s :
  all_chars (fun c => negb (Builtins.is_space c)) s = true ->
  Builtins.lstrip s = s.
Proof.
  destruct s as [|c s]; simpl; [reflexivity|].
  intros H. apply andb_true_iff in H as [Hc _].
  apply negb_true_iff in Hc. now rewrite Hc.
Qed.

Lemma rstrip_no_space s :
  all_chars (fun c => negb (Builtins.is_space c)) s = true ->
  Builtins.rstrip s = s.
Proof.
  induction s as [|c s IH]; simpl; [reflexivity|].
  intros H. apply andb_true_iff in H as [Hc Hs].
  apply negb_true_iff in Hc. rewrite (IH Hs), Hc.
  destruct s; reflexivity.
Qed.

(** [int(str(n)) == n] for every integer whose text is within the limit
    on digits. *)
Lemma int_of_str_str_int n :
  Builtins.count_digits (str_int n) <= Builtins.max_str_digits ->
  Builtins.int_of_str (str_int n) = Ok n.
Proof.
  assert (forall k, all_chars (fun c => negb (Builtins.is_space c)) (dec k) = true)
    as Hns.
  { intros k. apply (all_chars_impl is_digit); [|apply dec_digits_only].
    intros c Hc. now rewrite (digit_is_no_space c Hc). }
  unfold str_int, Builtins.int_of_str. destruct (n <? 0) eqn:E.
  - apply Z.ltb_lt in E.
    change ("-" +:+ dec (- n)) with (String (chr 45) (dec (- n))).
    intros Hlim.
    rewrite lstrip_no_space, rstrip_no_space by (simpl; apply Hns).
    cbn [Ascii.eqb]. rewrite Ascii.eqb_refl, digits_val_dec by lia.
    cbn [fmap option_fmap option_map].
    destruct (Z.ltb_spec Builtins.max_str_digits
                (Builtins.count_digits (String (chr 45) (dec (- n)))));
      [lia|]. f_equal. lia.
  - apply Z.ltb_ge in E. intros Hlim.
    rewrite lstrip_no_space, rstrip_no_space by apply Hns.
    pose proof (dec_digits_only n) as Hd. pose proof (dec_nonempty n) as Hne.
    pose proof (digits_val_dec n E) as Hv.
    destruct (dec n) as [|c t]; [congruence|].
    simpl in Hd. apply andb_true_iff in Hd as [Hc _].
    destruct (digit_is_no_sign c Hc) as [-> ->].
    rewrite Hv.
    destruct (Z.ltb_spec Builtins.max_str_digits
                (Builtins.count_digits (String c t))); [lia|]. reflexivity.
Qed.

(* ===================================================================== *)
(** * Facts about the configuration loader *)
(* ===================================================================== *)

Lemma isfile_false (fs : gmap string string) p :
  os.isfile fs p = false <-> fs !! p = None.
Proof.
  unfold os.isfile. rewrite bool_decide_eq_false, <- eq_None_not_Some.
  reflexivity.
Qed.

Lemma isfile_true (fs : gmap string string) p :
  os.isfile fs p = true <-> is_Some (fs !! p).
Proof. unfold os.isfile. apply bool_decide_eq_true. Qed.

(** What [main] reads back from the dict [load_config] builds. *)
Lemma app_dict_fields interval log_file :
  (let* app := Builtins.getitem (app_dict interval log_file) "app" in
   Builtins.getitem app "interval_seconds") = Ok (VInt interval) /\
  (let* app := Builtins.getitem (app_dict interval log_file) "app" in
   Builtins.getitem app "log_file") = Ok (VStr log_file).
Proof.
  unfold app_dict; cbn [Builtins.getitem Py.bind].
  rewrite lookup_singleton_eq; cbn [Builtins.getitem Py.bind].
  rewrite lookup_insert_eq, lookup_insert_ne by discriminate.
  rewrite lookup_singleton_eq. split; reflexivity.
Qed.

(** The loader on a file that exists and parses: lines 38-41 applied to
    the parsed table. *)
Lemma load_config_parsed config_path fs text data :
  fs !! config_path = Some text ->
  tomllib_loads text = Ok data ->
  load_config config_path fs =
    (let app_cfg := Builtins.dict_get data "app" (VDict ∅) in
     let* i := Builtins.get app_cfg "interval_seconds" (VInt 300) in
     let* interval := Builtins.int i in
     let* l := Builtins.get app_cfg "log_file" (VStr "internet_metrics.csv") in
     Ok (app_dict interval (Builtins.str repr_other l))).
Proof.
  intros Hf Hp. unfold load_config.
  assert (os.isfile fs config_path = true) as ->
    by (apply isfile_true; rewrite Hf; eauto).
  rewrite Hf; simpl. rewrite Hp. reflexivity.
Qed.

(** C7.  For every path that does not name an existing file,
    [load_config] returns the built-in defaults, interval 300 and log
    destination [internet_metrics.csv], and does not raise; [main] reads
    exactly these two values back from the dict. *)
Theorem load_config_defaults_without_file config_path fs :
  os.isfile fs config_path = false ->
  load_config config_path fs = Ok (app_dict 300 "internet_metrics.csv") /\
  (let* cfg := load_config config_path fs in
   let* app := Builtins.getitem cfg "app" in
   Builtins.getitem app "interval_seconds") = Ok (VInt 300) /\
  (let* cfg := load_config config_path fs in
   let* app := Builtins.getitem cfg "app" in
   Builtins.getitem app "log_file") = Ok (VStr "internet_metrics.csv").
Proof.
  intros Hno.
  assert (load_config config_path fs = Ok (app_dict 300 "internet_metrics.csv")) as E
    by (unfold load_config; rewrite Hno; reflexivity).
  rewrite E. split; [reflexivity|].
  cbn [Py.bind]. apply app_dict_fields.
Qed.



(* ===================================================================== *)
(** * Facts about the result store *)
(* ===================================================================== *)

Lemma writerow_header : Csv.writerow header = header_line.
Proof. reflexivity. Qed.

(** Store initialization decides on what lines 45-51 find, and writes by
    appending. *)
Lemma ensure_csv_with_headers_cases io_stat io_mkdir io_open csv_path fs :
  ensure_csv_with_headers io_stat io_mkdir io_open csv_path fs =
    let* needs_header := header_needed io_stat csv_path fs in
    if needs_header then
      let* _ := os.makedirs io_mkdir (or_dot (os.dirname csv_path)) in
      os.append_text io_open csv_path header_line fs
    else Ok fs.
Proof.
  unfold ensure_csv_with_headers, header_needed, os.exists_, os.getsize, content.
  destruct (fs !! csv_path) as [c|] eqn:E.
  - rewrite bool_decide_eq_true_2 by eauto.
    destruct io_stat as [e|]; cbn [negb orb Py.bind default from_option id].
    + destruct (is_OSError e); reflexivity.
    + destruct c; reflexivity.
  - rewrite bool_decide_eq_false_2 by (intros [? [=]]). reflexivity.
Qed.

(** When the [stat] call goes through, the size of a file that exists is
    read. *)
Lemma getsize_of_existing fs p :
  os.exists_ fs p = true -> exists n, os.getsize None fs p = Ok n.
Proof.
  unfold os.exists_, os.getsize. rewrite bool_decide_eq_true.
  intros [c ->]. eauto.
Qed.

Lemma header_needed_of_empty io_stat csv_path fs b :
  content fs csv_path = EmptyString ->
  header_needed io_stat csv_path fs = Ok b -> b = true.
Proof.
  unfold header_needed. intros Hc.
  destruct (os.exists_ fs csv_path); [|congruence].
  destruct io_stat as [e|].
  - destruct (is_OSError e); congruence.
  - rewrite Hc. cbn. congruence.
Qed.

Lemma header_needed_of_populated io_stat csv_path fs :
  content fs csv_path <> EmptyString ->
  header_needed io_stat csv_path fs =
    match io_stat with
    | Some e => if is_OSError e then Ok true else Raise e
    | None => Ok false
    end.
Proof.
  unfold header_needed, os.exists_, content. intros Hc.
  destruct (fs !! csv_path) as [c|] eqn:E; [|contradiction Hc; reflexivity].
  rewrite bool_decide_eq_true_2 by eauto.
  destruct io_stat; [reflexivity|].
  cbn [default from_option id] in *.
  destruct (String.eqb_spec c EmptyString); [contradiction|reflexivity].
Qed.

(** A call that returns has appended the header line or nothing. *)
Lemma ensure_csv_with_headers_appends io_stat io_mkdir io_open csv_path fs fs1 :
  ensure_csv_with_headers io_stat io_mkdir io_open csv_path fs = Ok fs1 ->
  fs1 = fs \/
  fs1 = <[csv_path := content fs csv_path +:+ header_line]> fs.
Proof.
  rewrite ensure_csv_with_headers_cases.
  destruct (header_needed io_stat csv_path fs) as [[]|e]; cbn [Py.bind];
    [| intros [= <-]; left; reflexivity | discriminate].
  unfold os.makedirs, os.append_text.
  destruct io_mkdir; [discriminate|]; cbn [Py.bind].
  destruct io_open; [discriminate|].
  intros [= <-]. right. reflexivity.
Qed.

Lemma ensure_csv_with_headers_writes io_stat io_mkdir io_open csv_path fs fs1 :
  content fs csv_path = EmptyString ->
  ensure_csv_with_headers io_stat io_mkdir io_open csv_path fs = Ok fs1 ->
  fs1 = <[csv_path := header_line]> fs.
Proof.
  intros Hc. rewrite ensure_csv_with_headers_cases.
  destruct (header_needed io_stat csv_path fs) as [b|e] eqn:E; cbn [Py.bind];
    [|discriminate].
  rewrite (header_needed_of_empty _ _ _ _ Hc E).
  unfold os.makedirs, os.append_text.
  destruct io_mkdir; [discriminate|]; cbn [Py.bind].
  destruct io_open; [discriminate|].
  fold (content fs csv_path). rewrite Hc. intros [= <-]. reflexivity.
Qed.

Lemma ensure_csv_with_headers_keeps io_mkdir io_open csv_path fs :
  content fs csv_path <> EmptyString ->
  ensure_csv_with_headers None io_mkdir io_open csv_path fs = Ok fs.
Proof.
  intros Hc.
  rewrite ensure_csv_with_headers_cases, header_needed_of_populated by assumption.
  reflexivity.
Qed.

(** The handler of lines 50-51: when the size of the destination cannot
    be read, the header is appended to whatever the file holds. *)
Lemma ensure_csv_with_headers_after_stat_error e io_mkdir io_open csv_path fs :
  content fs csv_path <> EmptyString ->
  is_OSError e = true ->
  ensure_csv_with_headers (Some e) io_mkdir io_open csv_path fs =
    let* _ := os.makedirs io_mkdir (or_dot (os.dirname csv_path)) in
    os.append_text io_open csv_path header_line fs.
Proof.
  intros Hc He.
  rewrite ensure_csv_with_headers_cases, header_needed_of_populated by assumption.
  rewrite He. reflexivity.
Qed.

Lemma header_line_nonempty : header_line <> EmptyString.
Proof. discriminate. Qed.

Lemma append_nonempty (s t : string) : s <> EmptyString -> s +:+ t <> EmptyString.
Proof. destruct s; [congruence|discriminate]. Qed.

Lemma content_after_ensure io_stat io_mkdir io_open csv_path fs fs1 :
  ensure_csv_with_headers io_stat io_mkdir io_open csv_path fs = Ok fs1 ->
  content fs1 csv_path <> EmptyString.
Proof.
  intros H.
  destruct (String.eqb_spec (content fs csv_path) EmptyString) as [Hc|Hc].
  - rewrite (ensure_csv_with_headers_writes _ _ _ _ _ _ Hc H).
    unfold content. rewrite lookup_insert_eq. apply header_line_nonempty.
  - destruct (ensure_csv_with_headers_appends _ _ _ _ _ _ H) as [->| ->];
      [assumption|].
    unfold content at 1. rewrite lookup_insert_eq. cbn [default from_option id].
    apply append_nonempty, Hc.
Qed.

Lemma initialize_repeatedly_keeps ios csv_path fs :
  sizes_readable ios ->
  content fs csv_path <> EmptyString ->
  initialize_repeatedly ios csv_path fs = Ok fs.
Proof.
  intros Hios Hc.
  induction Hios as [|[[a b] c] ios Ha _ IH]; cbn [initialize_repeatedly];
    [reflexivity|].
  cbn in Ha. subst a.
  rewrite ensure_csv_with_headers_keeps by assumption. exact IH.
Qed.

(** C5.  Store initialization writes by appending the header record
    [timestamp_iso,download_mbps,upload_mbps,ping_ms], and only that.  On
    a destination that is missing or empty a call that returns leaves
    exactly the header, so it is the first record of the file.  On a
    destination that exists and is not empty it writes nothing when the
    size of the file can be read, whatever the answers to the other calls
    would have been; when reading the size raises an [OSError], the
    handler of lines 50-51 asks for a header and the call appends one
    after the text the file holds; any other exception of the size call
    leaves the function.  Hence, as long as the size can be read, after
    one initialization any number of further ones change nothing, and any
    number of initializations write at most one header record, and only at
    the top of an empty file. *)
Theorem ensure_csv_with_headers_idempotent csv_path fs :
  (content fs csv_path = EmptyString ->
     ensure_csv_with_headers None None None csv_path fs
       = Ok (<[csv_path := header_line]> fs) /\
     forall io_stat io_mkdir io_open fs1,
       ensure_csv_with_headers io_stat io_mkdir io_open csv_path fs = Ok fs1 ->
       fs1 = <[csv_path := header_line]> fs) /\
  (forall io_mkdir io_open,
     content fs csv_path <> EmptyString ->
     ensure_csv_with_headers None io_mkdir io_open csv_path fs = Ok fs) /\
  (forall e,
     content fs csv_path <> EmptyString ->
     (is_OSError e = true ->
        ensure_csv_with_headers (Some e) None None csv_path fs
          = Ok (<[csv_path := content fs csv_path +:+ header_line]> fs) /\
        forall io_mkdir io_open fs1,
          ensure_csv_with_headers (Some e) io_mkdir io_open csv_path fs = Ok fs1 ->
          fs1 = <[csv_path := content fs csv_path +:+ header_line]> fs) /\
     (is_OSError e = false ->
        forall io_mkdir io_open,
          ensure_csv_with_headers (Some e) io_mkdir io_open csv_path fs = Raise e)) /\
  (forall io_stat io_mkdir io_open fs1,
     ensure_csv_with_headers io_stat io_mkdir io_open csv_path fs = Ok fs1 ->
     forall ios, sizes_readable ios ->
       initialize_repeatedly ios csv_path fs1 = Ok fs1) /\
  (forall ios fs',
     sizes_readable ios ->
     initialize_repeatedly ios csv_path fs = Ok fs' ->
     fs' = fs \/
     (content fs csv_path = EmptyString /\ fs' = <[csv_path := header_line]> fs)).
Proof.
  split; [|split; [|split; [|split]]].
  - intros Hc. split.
    + rewrite ensure_csv_with_headers_cases.
      assert (header_needed None csv_path fs = Ok true) as ->.
      { unfold header_needed. destruct (os.exists_ fs csv_path); [|reflexivity].
        rewrite Hc. reflexivity. }
      cbn [Py.bind os.makedirs].
      unfold os.append_text. fold (content fs csv_path). rewrite Hc. reflexivity.
    + intros ? ? ? ?. apply ensure_csv_with_headers_writes; assumption.
  - intros ? ? Hc. apply ensure_csv_with_headers_keeps; assumption.
  - intros e Hc. split.
    + intros He. split.
      * rewrite ensure_csv_with_headers_after_stat_error by assumption.
        reflexivity.
      * intros io_mkdir io_open fs1.
        rewrite ensure_csv_with_headers_after_stat_error by assumption.
        unfold os.makedirs, os.append_text.
        destruct io_mkdir; [discriminate|]; cbn [Py.bind].
        destruct io_open; [discriminate|]. intros [= <-]. reflexivity.
    + intros He io_mkdir io_open.
      rewrite ensure_csv_with_headers_cases, header_needed_of_populated
        by assumption.
      rewrite He. reflexivity.
  - intros ? ? ? fs1 H ios Hios. apply initialize_repeatedly_keeps; [assumption|].
    eapply content_after_ensure; eassumption.
  - intros ios fs' Hios. destruct Hios as [|[[a b] c] ios Ha Hios];
      cbn [initialize_repeatedly].
    + intros [= <-]. left; reflexivity.
    + cbn in Ha. subst a.
      destruct (ensure_csv_with_headers None b c csv_path fs) as [fs1|e] eqn:E;
        cbn [Py.bind]; [|discriminate].
      rewrite (initialize_repeatedly_keeps ios csv_path fs1)
        by (try assumption; eapply content_after_ensure; eassumption).
      intros [= <-].
      destruct (String.eqb_spec (content fs csv_path) EmptyString) as [Hc|Hc].
      * right. split; [assumption|].
        eapply ensure_csv_with_headers_writes; eassumption.
      * left. rewrite ensure_csv_with_headers_keeps in E by assumption.
        congruence.
Qed.

Lemma result_row_written when dl ul ping :
  Csv.writerow (result_row when dl ul ping) = record_line when dl ul ping.
Proof.
  unfold result_row, record_line.
  apply writerow_four_plain;
    solve [apply isoformat_utc | apply format_2f_plain].
Qed.

(** C4.  For every sample with finite rates and latency, [append_result]
    returns unless the operating system refuses the file, and when it has
    returned the destination holds its former text followed by exactly one
    new record: the timestamp as an ISO-8601 instant ending in the UTC
    offset marker [+00:00] (of the shape [YYYY-MM-DDTHH:MM:SS+00:00], with
    six fractional digits when there are microseconds, for every value a
    [datetime] can hold), then the download rate, the upload rate and the
    latency, each with exactly two decimal places, separated by commas and
    closed by the line terminator.  No field holds a comma, a quote or
    a line break, so the text is one record of four fields; reading the
    destination right after the call yields it, and no other file has
    changed. *)
Theorem append_result_writes_one_record io_open csv_path when dl ul ping fs :
  is_finite dl = true -> is_finite ul = true -> is_finite ping = true ->
  let ts := isoformat (replace_tzinfo utc when) in
  let line := ts +:+ "," +:+ format_2f dl +:+ "," +:+ format_2f ul +:+ ","
                 +:+ format_2f ping +:+ Csv.lineterminator in
  append_result io_open csv_path when dl ul ping fs =
    match io_open with
    | Some e => Raise e
    | None => Ok (<[csv_path := content fs csv_path +:+ line]> fs)
    end /\
  (forall fs', append_result io_open csv_path when dl ul ping fs = Ok fs' ->
     fs' !! csv_path = Some (content fs csv_path +:+ line) /\
     forall p, p <> csv_path -> fs' !! p = fs !! p) /\
  ends_with "+00:00" ts /\
  (Datetime.wf when -> iso_utc_text ts) /\
  two_decimals (format_2f dl) /\
  two_decimals (format_2f ul) /\
  two_decimals (format_2f ping) /\
  all_chars plain ts = true /\
  all_chars plain (format_2f dl) = true /\
  all_chars plain (format_2f ul) = true /\
  all_chars plain (format_2f ping) = true.
Proof.
  intros Hd Hu Hp ts line.
  assert (append_result io_open csv_path when dl ul ping fs =
          match io_open with
          | Some e => Raise e
          | None => Ok (<[csv_path := content fs csv_path +:+ line]> fs)
          end) as E.
  { unfold append_result. rewrite result_row_written.
    unfold os.append_text. destruct io_open; reflexivity. }
  split; [exact E|]. split.
  - intros fs'. rewrite E. destruct io_open; [discriminate|].
    intros [= <-]. split; [apply lookup_insert_eq|].
    intros p Hne. apply lookup_insert_ne. congruence.
  - split; [apply isoformat_utc|].
    split; [apply isoformat_utc_shape|].
    repeat split;
      solve [apply isoformat_utc | apply format_2f_two_decimals; assumption
            | apply format_2f_plain].
Qed.

(* ===================================================================== *)
(** * Facts about the run loop *)
(* ===================================================================== *)

Ltac st_simpl :=
  cbn [at_ _STOP_REQUESTED interval_seconds csv_path files stdout stderr sleeps
       goto set_files set_config print eprint sleep _handle_stop_signal].

Lemma run_app evs1 evs2 s : run (evs1 ++ evs2) s = run evs2 (run evs1 s).
Proof. apply fold_left_app. Qed.

Lemma run_cons ev evs s : run (ev :: evs) s = run evs (react s ev).
Proof. reflexivity. Qed.

(** A cycle that fails with an [Exception] prints the diagnostic and does
    nothing else. *)
Lemma cycle_failed a started s e :
  cycle_error a = Some e -> is_Exception e = true ->
  cycle a started s = eprint (diagnostic e) s.
Proof.
  unfold cycle_error, cycle, append_result, os.append_text. intros He Hex.
  destruct (run_speed_test a) as [[[dl ul] ping]|e0]; cbn [Py.bind].
  - rewrite He; cbn [Py.bind]. rewrite Hex. reflexivity.
  - injection He as ->. rewrite Hex. reflexivity.
Qed.

(** A cycle that succeeds appends the record and reports on standard
    output. *)
Lemma cycle_succeeded a started s dl ul ping :
  run_speed_test a = Ok (dl, ul, ping) -> io_open a = None ->
  exists line,
    cycle a started s =
      print line
        (set_files (<[csv_path s := content (files s) (csv_path s)
                        +:+ Csv.writerow (result_row started dl ul ping)]> (files s)) s).
Proof.
  unfold cycle, append_result, os.append_text. intros -> ->.
  cbn [Py.bind]. eexists. reflexivity.
Qed.

Lemma cycle_keeps a started s :
  _STOP_REQUESTED (cycle a started s) = _STOP_REQUESTED s /\
  interval_seconds (cycle a started s) = interval_seconds s /\
  csv_path (cycle a started s) = csv_path s /\
  sleeps (cycle a started s) = sleeps s.
Proof.
  unfold cycle.
  destruct (Py.bind _ _) as [s'|e] eqn:E.
  - destruct (run_speed_test a) as [[[dl ul] ping]|e0]; cbn [Py.bind] in E;
      [|discriminate].
    destruct (append_result _ _ _ _ _ _ _); cbn [Py.bind] in E; [|discriminate].
    injection E as <-. st_simpl. auto.
  - destruct (is_Exception e); st_simpl; auto.
Qed.

(** [main] never writes the stop flag. *)
Lemma step_keeps_stop a s :
  _STOP_REQUESTED (step a s) = _STOP_REQUESTED s.
Proof.
  unfold step. destruct (at_ s) eqn:E; try reflexivity.
  - unfold startup. destruct (Py.bind _ _) as [[[i p] f]|e]; reflexivity.
  - destruct (negb _); reflexivity.
  - destruct (at_ (cycle a started s)); st_simpl; apply cycle_keeps.
  - destruct (_ && _); reflexivity.
Qed.

Lemma signal_when_stopping n s :
  _STOP_REQUESTED s = true -> react s (Signal n) = s.
Proof.
  destruct s; cbn. intros ->. destruct (halted _); reflexivity.
Qed.

Lemma react_keeps_stop s ev :
  _STOP_REQUESTED s = true -> _STOP_REQUESTED (react s ev) = true.
Proof.
  destruct ev as [n|a]; cbn [react].
  - intros H. destruct (halted s); [exact H | reflexivity].
  - now rewrite step_keeps_stop.
Qed.

Lemma run_keeps_stop evs : forall s,
  _STOP_REQUESTED s = true -> _STOP_REQUESTED (run evs s) = true.
Proof.
  induction evs as [|ev evs IH]; intros s H; [exact H|].
  rewrite run_cons. apply IH, react_keeps_stop, H.
Qed.

Lemma halted_stays evs : forall s, halted s = true -> run evs s = s.
Proof.
  induction evs as [|ev evs IH]; intros s H; [reflexivity|].
  rewrite run_cons.
  assert (react s ev = s) as ->; [|apply IH, H].
  destruct ev as [n|a]; cbn [react]; [now rewrite H|].
  unfold halted in H. unfold step. destruct (at_ s); congruence.
Qed.

(** C6.  The stop flag is false when the process starts; the signal
    handler sets it to true and is the only code that writes it, no step of
    [main] changes it; once true it stays true along every sequence of
    signals and steps, so it goes from false to true at most once and never
    back; and a signal delivered when the flag is already true changes
    nothing at all, neither the flag nor the state of the loop. *)
Theorem stop_flag_latches :
  (forall fs, _STOP_REQUESTED (initial fs) = false) /\
  (forall n s, _STOP_REQUESTED (_handle_stop_signal n s) = true) /\
  (forall a s, _STOP_REQUESTED (step a s) = _STOP_REQUESTED s) /\
  (forall evs s, _STOP_REQUESTED s = true -> _STOP_REQUESTED (run evs s) = true) /\
  (forall n s, _STOP_REQUESTED s = true -> react s (Signal n) = s) /\
  (forall n m s, react (react s (Signal n)) (Signal m) = react s (Signal n)).
Proof.
  repeat split.
  - apply step_keeps_stop.
  - intros evs s. apply run_keeps_stop.
  - intros n s. apply signal_when_stopping.
  - intros n m s. cbn [react]. destruct (halted s) eqn:H.
    + now rewrite H.
    + apply (signal_when_stopping m (_handle_stop_signal n s)). reflexivity.
Qed.

(** The five moves of the loop. *)
Lemma loop_top_enters a s :
  at_ s = LoopTop -> _STOP_REQUESTED s = false ->
  step a s = goto (InCycle (utcnow a)) s.
Proof. unfold step. intros -> ->. reflexivity. Qed.

Lemma loop_top_exits a s :
  at_ s = LoopTop -> _STOP_REQUESTED s = true ->
  step a s = goto (Exited 0) (print "[isp-service-checker] Stopped." s).
Proof. unfold step. intros -> ->. reflexivity. Qed.

Lemma wait_test_sleeps a s slept :
  at_ s = WaitTest slept -> slept < interval_seconds s ->
  _STOP_REQUESTED s = false ->
  step a s = goto (Sleeping slept) (sleep 1 s).
Proof.
  unfold step. intros -> Hlt ->.
  rewrite (proj2 (Z.ltb_lt _ _) Hlt). cbn [andb negb].
  rewrite Z.min_l by lia. reflexivity.
Qed.

Lemma wait_test_leaves a s slept :
  at_ s = WaitTest slept ->
  interval_seconds s <= slept \/ _STOP_REQUESTED s = true ->
  step a s = goto LoopTop s.
Proof.
  unfold step. intros -> [Hle| ->].
  - rewrite (proj2 (Z.ltb_ge _ _) Hle). reflexivity.
  - rewrite andb_false_r. reflexivity.
Qed.

Lemma sleeping_ends a s slept :
  at_ s = Sleeping slept -> step a s = goto (WaitTest (slept + 1)) s.
Proof. unfold step. intros ->. reflexivity. Qed.

(** A wait that no signal interrupts: as many one-second sleeps as
    seconds are left, the flag tested before each. *)
Lemma full_wait k : forall slept s (l : list answers),
  at_ s = WaitTest slept -> _STOP_REQUESTED s = false ->
  interval_seconds s - slept = Z.of_nat k ->
  length l = (2 * k)%nat ->
  run (map Run l) s =
    State (WaitTest (interval_seconds s)) false (interval_seconds s)
          (csv_path s) (files s) (stdout s) (stderr s)
          (sleeps s ++ repeat 1 k).
Proof.
  induction k as [|k IH]; intros slept s l Hat Hstop Hleft Hlen.
  - destruct l; [|discriminate]. destruct s; cbn in *. subst.
    rewrite app_nil_r. do 2 f_equal. lia.
  - destruct l as [|a1 [|a2 l]]; cbn [length] in Hlen; try lia.
    cbn [map]. rewrite !run_cons. cbn [react].
    rewrite (wait_test_sleeps a1 s slept) by (auto; lia).
    rewrite (sleeping_ends a2 _ slept) by reflexivity.
    rewrite (IH (slept + 1)); st_simpl; auto; try lia.
    rewrite <- app_assoc. reflexivity.
Qed.

(** After a wait that no signal interrupts, the next cycle begins. *)
Lemma next_cycle_after_wait s (waits : list answers) (a1 a2 : answers) :
  at_ s = WaitTest 0 -> _STOP_REQUESTED s = false ->
  length waits = (2 * Z.to_nat (interval_seconds s))%nat ->
  run (map Run (waits ++ [a1; a2])) s =
    State (InCycle (utcnow a2)) false (interval_seconds s)
          (csv_path s) (files s) (stdout s) (stderr s)
          (sleeps s ++ repeat 1 (Z.to_nat (interval_seconds s))).
Proof.
  intros Hat Hstop Hlen.
  rewrite map_app, run_app.
  destruct (Z.le_gt_cases (interval_seconds s) 0) as [Hle|Hgt].
  - replace (Z.to_nat (interval_seconds s)) with O in * by lia.
    destruct waits; [|discriminate]. cbn [map repeat]. rewrite app_nil_r.
    change (run [] s) with s. rewrite !run_cons. cbn [react run fold_left].
    rewrite (wait_test_leaves a1 s 0) by auto.
    rewrite loop_top_enters by (st_simpl; auto).
    destruct s; cbn in *; subst; reflexivity.
  - rewrite (full_wait (Z.to_nat (interval_seconds s)) 0 s waits)
      by (auto; lia).
    cbn [map]. rewrite !run_cons. cbn [react run fold_left].
    rewrite (wait_test_leaves a1 _ (interval_seconds s))
      by (st_simpl; auto; left; lia).
    rewrite loop_top_enters by reflexivity.
    reflexivity.
Qed.

(** C1.  In every cycle in which [run_speed_test] raises an error, or it
    returns and appending the sample raises one, the error is caught
    inside the loop: the step ends at the wait with the process alive,
    exactly one entry, the diagnostic with the detail of the error, has
    been added to standard error, standard output and every file are as
    they were, so that no record was appended; and when no stop signal
    arrives, the wait of [interval_seconds] one-second sleeps is served in
    full and the next cycle is entered. *)
Theorem cycle_failure_is_isolated a started s e :
  at_ s = InCycle started ->
  cycle_error a = Some e ->
  is_Exception e = true ->
  let s' := step a s in
  at_ s' = WaitTest 0 /\
  halted s' = false /\
  files s' = files s /\
  stderr s' = stderr s ++ ["[isp-service-checker] Error during speed test: "
                             +:+ exn_str e] /\
  stdout s' = stdout s /\
  (_STOP_REQUESTED s = false ->
   forall (waits : list answers) (a1 a2 : answers),
     length waits = (2 * Z.to_nat (interval_seconds s))%nat ->
     let s'' := run (map Run (waits ++ [a1; a2])) s' in
     at_ s'' = InCycle (utcnow a2) /\
     sleeps s'' = sleeps s ++ repeat 1 (Z.to_nat (interval_seconds s)) /\
     files s'' = files s /\
     stderr s'' = stderr s').
Proof.
  intros Hat He Hex s'.
  assert (s' = goto (WaitTest 0) (eprint (diagnostic e) s)) as Es.
  { unfold s', step. rewrite Hat, (cycle_failed a started s e He Hex).
    st_simpl. rewrite Hat. reflexivity. }
  rewrite Es. st_simpl. do 5 (split; [reflexivity|]).
  intros Hstop waits a1 a2 Hlen. cbv zeta.
  rewrite next_cycle_after_wait; st_simpl; auto.
Qed.

Lemma stopping_step a s k :
  _STOP_REQUESTED s = true -> steps_to_exit s = Some (S k) ->
  steps_to_exit (step a s) = Some k /\ sleeps (step a s) = sleeps s.
Proof.
  unfold steps_to_exit. intros Hstop Hk.
  destruct (at_ s) as [| |t|j|j|[]|e] eqn:Hat; try discriminate;
    injection Hk as <-.
  - rewrite loop_top_exits by assumption. split; reflexivity.
  - rewrite (wait_test_leaves a s j) by auto. split; reflexivity.
  - rewrite (sleeping_ends a s j) by assumption. split; reflexivity.
Qed.

Lemma stopping_run evs : forall s k,
  _STOP_REQUESTED s = true -> steps_to_exit s = Some k ->
  (k <= runs evs)%nat ->
  at_ (run evs s) = Exited 0 /\ sleeps (run evs s) = sleeps s.
Proof.
  induction evs as [|[n|a] evs IH]; intros s k Hstop Hk Hle.
  - cbn in Hle. assert (k = O) as -> by lia.
    unfold steps_to_exit in Hk. cbn [run fold_left].
    destruct (at_ s) as [| |t|j|j|[]|e]; try discriminate. auto.
  - rewrite run_cons, signal_when_stopping by assumption.
    apply (IH s k); auto.
  - rewrite run_cons. cbn [react]. destruct k as [|k].
    + rewrite halted_stays.
      * unfold steps_to_exit in Hk.
        assert (step a s = s) as ->
          by (unfold step; destruct (at_ s) as [| |t|j|j|[]|e]; try discriminate;
              reflexivity).
        destruct (at_ s) as [| |t|j|j|[]|e]; try discriminate. auto.
      * unfold steps_to_exit in Hk. unfold halted, step.
        destruct (at_ s) as [| |t|j|j|[]|e] eqn:Hat; try discriminate.
        rewrite Hat. reflexivity.
    + destruct (stopping_step a s k Hstop Hk) as [Hk' Hs].
      rewrite <- Hs. apply (IH (step a s) k); auto.
      * now rewrite step_keeps_stop.
      * cbn in Hle. lia.
Qed.

(** Each step starts at most one sleep, and a sleep is asked for one
    second. *)
Lemma step_sleeps a s :
  sleeps (step a s) = sleeps s \/
  exists d, 0 < d <= 1 /\ sleeps (step a s) = sleeps s ++ [d].
Proof.
  unfold step. destruct (at_ s) eqn:Hat; auto.
  - left. unfold startup. destruct (Py.bind _ _) as [[[i p] f]|e]; reflexivity.
  - left. destruct (negb _); reflexivity.
  - left. destruct (at_ (cycle a started s)); st_simpl; apply cycle_keeps.
  - destruct (slept <? interval_seconds s) eqn:Hlt; cbn [andb]; auto.
    destruct (negb _); auto.
    right. exists (Z.min 1 (interval_seconds s - slept)).
    apply Z.ltb_lt in Hlt. split; [lia | reflexivity].
Qed.

(** C2.  The wait is served in sleeps of at most one second each: a step
    of [main] starts at most one sleep, of a duration [d] with
    [0 < d <= 1]; the flag is tested again after every sleep, since the
    step that ends a sleep leads to the test of the inner loop and to
    nothing else.  When a stop signal is delivered during the wait phase,
    whether a sleep is in progress or the test is about to be made, the
    flag is true from then on, no further sleep is started, and after at
    most three moves of [main] (the end of the sleep in progress, the two
    loop tests) the process has exited with status 0, whatever signals
    arrive meanwhile: the loop stops within the increment in progress and
    does not serve the rest of the interval. *)
Theorem stop_during_wait_ends_within_one_increment s slept signum evs :
  at_ s = WaitTest slept \/ at_ s = Sleeping slept ->
  (3 <= runs evs)%nat ->
  let s0 := react s (Signal signum) in
  let s' := run evs s0 in
  _STOP_REQUESTED s0 = true /\
  at_ s' = Exited 0 /\
  sleeps s' = sleeps s /\
  (forall a st, sleeps (step a st) = sleeps st \/
                exists d, 0 < d <= 1 /\ sleeps (step a st) = sleeps st ++ [d]) /\
  (forall a st j, at_ st = Sleeping j -> step a st = goto (WaitTest (j + 1)) st).
Proof.
  intros Hat Hruns s0 s'.
  assert (s0 = _handle_stop_signal signum s) as E0.
  { unfold s0. cbn [react]. unfold halted.
    destruct Hat as [-> | ->]; reflexivity. }
  assert (_STOP_REQUESTED s0 = true) as Hstop by (rewrite E0; reflexivity).
  assert (exists k, steps_to_exit s0 = Some k /\ (k <= 3)%nat) as (k & Hk & Hk3).
  { rewrite E0. unfold steps_to_exit. st_simpl.
    destruct Hat as [-> | ->]; eauto. }
  destruct (stopping_run evs s0 k Hstop Hk ltac:(lia)) as [Hexit Hsl].
  split; [exact Hstop|]. split; [exact Hexit|].
  split; [unfold s'; rewrite Hsl, E0; reflexivity|].
  split; [apply step_sleeps | intros a st j; apply sleeping_ends].
Qed.

(** Startup, when the configuration loads: the two values are read back
    from the dict and the store is initialized. *)
Lemma startup_loaded a s interval path :
  load_config "config.toml" (files s) = Ok (app_dict interval path) ->
  startup a s =
    match ensure_csv_with_headers (io_stat a) (io_mkdir a) (io_open a)
            path (files s) with
    | Raise e => goto (Crashed e) s
    | Ok fs =>
        goto LoopTop
          (print ("[isp-service-checker] Interval: " +:+ str_int interval +:+ " seconds")
             (print ("[isp-service-checker] Logging to: " +:+ path)
                (set_files fs (set_config interval path s))))
    end.
Proof.
  intros Hload. unfold startup. rewrite Hload. cbn [Py.bind].
  unfold app_dict. cbn [Builtins.getitem].
  rewrite !lookup_singleton_eq. cbn [Py.bind Builtins.getitem].
  rewrite lookup_insert_eq. cbn [Py.bind Builtins.int].
  rewrite lookup_insert_ne by discriminate.
  rewrite lookup_singleton_eq. cbn [Py.bind Builtins.str].
  destruct (ensure_csv_with_headers _ _ _ _ _); reflexivity.
Qed.

(** Whatever [load_config] returns is a dict of the two settings. *)
Lemma load_config_returns_app_dict config_path fs cfg :
  load_config config_path fs = Ok cfg ->
  exists interval path, cfg = app_dict interval path.
Proof.
  unfold load_config. destruct (negb _).
  - intros [= <-]. eauto.
  - destruct (tomllib_loads _); cbn [Py.bind]; [|discriminate].
    destruct (Builtins.get _ _ _); cbn [Py.bind]; [|discriminate].
    destruct (Builtins.int _); cbn [Py.bind]; [|discriminate].
    destruct (Builtins.get _ _ _); cbn [Py.bind]; [|discriminate].
    intros [= <-]. eauto.
Qed.


Lemma ensure_csv_with_headers_goes_through io_stat io_mkdir io_open csv_path fs :
  header_needed io_stat csv_path fs = Ok true ->
  first_fault io_mkdir io_open = None ->
  ensure_csv_with_headers io_stat io_mkdir io_open csv_path fs =
    Ok (<[csv_path := content fs csv_path +:+ header_line]> fs).
Proof.
  intros Hc Hf. rewrite ensure_csv_with_headers_cases, Hc. cbn [Py.bind].
  unfold first_fault in Hf. destruct io_mkdir; [discriminate|]. subst io_open.
  reflexivity.
Qed.

(** An exception caught by [except Exception] ends the process with
    status 1 when nothing catches it, and so does every [OSError]. *)
Lemma ending_of_Exception e :
  is_Exception e = true -> ending_of_exception e = Status 1.
Proof.
  unfold is_Exception, ending_of_exception.
  destruct (exn_cls e); first [reflexivity | discriminate].
Qed.

Lemma OSError_is_Exception e : is_OSError e = true -> is_Exception e = true.
Proof.
  unfold is_OSError, is_Exception.
  destruct (exn_cls e); first [reflexivity | discriminate].
Qed.




(* ===================================================================== *)
(** * What the program does to the files *)
(* ===================================================================== *)

Lemma extends_refl fs : extends fs fs.
Proof.
  intros p. split; [|auto]. exists EmptyString. now rewrite append_empty_r.
Qed.

Lemma extends_trans fs1 fs2 fs3 :
  extends fs1 fs2 -> extends fs2 fs3 -> extends fs1 fs3.
Proof.
  intros H12 H23 p. destruct (H12 p) as [[u Hu] K12], (H23 p) as [[v Hv] K23].
  split; [|auto]. exists (u +:+ v). now rewrite Hv, Hu, append_assoc.
Qed.

Lemma touches_only_refl p fs : touches_only p fs fs.
Proof. intros q _. reflexivity. Qed.

Lemma touches_only_trans p fs1 fs2 fs3 :
  touches_only p fs1 fs2 -> touches_only p fs2 fs3 -> touches_only p fs1 fs3.
Proof. intros H12 H23 q Hq. now rewrite H23, H12. Qed.

(** Appending to a file extends it and touches no other. *)
Lemma append_text_extends io p text fs fs' :
  os.append_text io p text fs = Ok fs' ->
  fs' = <[p := content fs p +:+ text]> fs /\
  extends fs fs' /\ touches_only p fs fs'.
Proof.
  unfold os.append_text. destruct io; [discriminate|]. intros [= <-].
  fold (content fs p). split; [reflexivity|]. split.
  - intros q. unfold content. destruct (decide (p = q)) as [->|Hne].
    + rewrite lookup_insert_eq. split; [|eauto].
      exists text. reflexivity.
    + rewrite lookup_insert_ne by assumption. split; [|auto].
      exists EmptyString. now rewrite append_empty_r.
  - intros q Hq. apply lookup_insert_ne. congruence.
Qed.

Lemma ensure_csv_with_headers_extends io_stat io_mkdir io_open p fs fs' :
  ensure_csv_with_headers io_stat io_mkdir io_open p fs = Ok fs' ->
  extends fs fs' /\ touches_only p fs fs'.
Proof.
  rewrite ensure_csv_with_headers_cases.
  destruct (header_needed io_stat p fs) as [[]|e]; cbn [Py.bind];
    [| |discriminate].
  - unfold os.makedirs. destruct io_mkdir; [discriminate|]. cbn [Py.bind].
    intros H. apply append_text_extends in H as (_ & H1 & H2).
    split; assumption.
  - intros [= <-]. split; [apply extends_refl | apply touches_only_refl].
Qed.

(** What startup leaves: either the exception, with the state as it was,
    or the loop, with the store initialized at the configured path. *)
Lemma startup_outcome a s :
  (exists e, startup a s = goto (Crashed e) s) \/
  (exists interval path fs1,
     load_config "config.toml" (files s) = Ok (app_dict interval path) /\
     ensure_csv_with_headers (io_stat a) (io_mkdir a) (io_open a)
       path (files s) = Ok fs1 /\
     startup a s =
       State LoopTop (_STOP_REQUESTED s) interval path fs1
             (stdout s ++ ["[isp-service-checker] Logging to: " +:+ path;
                           "[isp-service-checker] Interval: "
                             +:+ str_int interval +:+ " seconds"])
             (stderr s) (sleeps s)).
Proof.
  destruct (load_config "config.toml" (files s)) as [cfg|e] eqn:Hload.
  - destruct (load_config_returns_app_dict _ _ _ Hload) as (i & p & ->).
    rewrite (startup_loaded a s i p Hload).
    destruct (ensure_csv_with_headers _ _ _ _ _) as [fs1|e] eqn:He.
    + right. exists i, p, fs1. split; [reflexivity|].
      split; [first [exact He | reflexivity]|].
      unfold goto, print, set_files, set_config; st_simpl.
      rewrite <- app_assoc. reflexivity.
    + left. eauto.
  - left. exists e. unfold startup. rewrite Hload. reflexivity.
Qed.

(** What a cycle leaves in the files: nothing, or one more row. *)
Lemma cycle_files a started s :
  files (cycle a started s) = files s \/
  exists dl ul ping,
    run_speed_test a = Ok (dl, ul, ping) /\ io_open a = None /\
    files (cycle a started s) =
      <[csv_path s := content (files s) (csv_path s)
                        +:+ record_line started dl ul ping]> (files s).
Proof.
  unfold cycle.
  destruct (run_speed_test a) as [[[dl ul] ping]|e]; cbn [Py.bind].
  - destruct (io_open a) as [e|] eqn:Hio.
    + left. unfold append_result, os.append_text. cbn [Py.bind].
      destruct (is_Exception e); reflexivity.
    + right. exists dl, ul, ping. repeat split.
      unfold append_result, os.append_text. cbn [Py.bind]. st_simpl.
      rewrite result_row_written. reflexivity.
  - left. destruct (is_Exception e); reflexivity.
Qed.

Lemma insert_extends fs p text :
  extends fs (<[p := content fs p +:+ text]> fs) /\
  touches_only p fs (<[p := content fs p +:+ text]> fs).
Proof.
  destruct (append_text_extends None p text fs _ eq_refl) as (_ & H1 & H2).
  split; assumption.
Qed.

Lemma step_files a s :
  extends (files s) (files (step a s)) /\
  (started_up s = true -> touches_only (csv_path s) (files s) (files (step a s))).
Proof.
  unfold step, started_up. destruct (at_ s) eqn:Hat.
  - split; [|discriminate].
    destruct (startup_outcome a s) as [[e ->] | (i & p & fs1 & _ & He & ->)];
      st_simpl; [apply extends_refl|].
    apply ensure_csv_with_headers_extends in He. tauto.
  - destruct (negb _); st_simpl;
      (split; [apply extends_refl | intros _; apply touches_only_refl]).
  - assert (files (match at_ (cycle a started s) with
                   | Crashed _ => cycle a started s
                   | _ => goto (WaitTest 0) (cycle a started s)
                   end) = files (cycle a started s)) as ->
      by (destruct (at_ (cycle a started s)); reflexivity).
    destruct (cycle_files a started s) as [-> | (dl & ul & ping & _ & _ & ->)].
    + split; [apply extends_refl | intros _; apply touches_only_refl].
    + split; [|intros _]; apply insert_extends.
  - destruct (_ && _); st_simpl;
      (split; [apply extends_refl | intros _; apply touches_only_refl]).
  - st_simpl. split; [apply extends_refl | intros _; apply touches_only_refl].
  - split; [apply extends_refl | intros _; apply touches_only_refl].
  - split; [apply extends_refl | intros _; apply touches_only_refl].
Qed.

(** Past startup the configured path and interval are fixed, and the
    process never comes back to its start. *)
Lemma step_keeps_config a s :
  started_up s = true ->
  started_up (step a s) = true /\
  csv_path (step a s) = csv_path s /\
  interval_seconds (step a s) = interval_seconds s.
Proof.
  unfold step, started_up. destruct (at_ s) eqn:Hat; try discriminate; intros _.
  - destruct (negb _); st_simpl; auto.
  - destruct (cycle_keeps a started s) as (_ & Hi & Hp & _).
    destruct (at_ (cycle a started s)) eqn:Hc; st_simpl; rewrite ?Hc; auto.
  - destruct (_ && _); st_simpl; auto.
  - st_simpl. auto.
  - rewrite Hat. auto.
  - rewrite Hat. auto.
Qed.

Lemma react_files s ev :
  extends (files s) (files (react s ev)) /\
  (started_up s = true ->
   touches_only (csv_path s) (files s) (files (react s ev)) /\
   started_up (react s ev) = true /\
   csv_path (react s ev) = csv_path s /\
   interval_seconds (react s ev) = interval_seconds s).
Proof.
  destruct ev as [n|a]; cbn [react].
  - assert (files (if halted s then s else _handle_stop_signal n s) = files s)
      as -> by (destruct (halted s); reflexivity).
    split; [apply extends_refl|]. intros Hs.
    split; [apply touches_only_refl|].
    destruct (halted s); st_simpl; auto.
  - split; [apply step_files|]. intros Hs.
    split; [apply step_files, Hs | apply step_keeps_config, Hs].
Qed.

Lemma run_files evs : forall s,
  extends (files s) (files (run evs s)) /\
  (started_up s = true ->
   touches_only (csv_path s) (files s) (files (run evs s)) /\
   started_up (run evs s) = true /\
   csv_path (run evs s) = csv_path s /\
   interval_seconds (run evs s) = interval_seconds s).
Proof.
  induction evs as [|ev evs IH]; intros s.
  - split; [apply extends_refl|]. intros Hs.
    split; [apply touches_only_refl | auto].
  - rewrite run_cons. destruct (react_files s ev) as [E1 T1].
    destruct (IH (react s ev)) as [E2 T2].
    split; [eapply extends_trans; eassumption|]. intros Hs.
    destruct (T1 Hs) as (T1' & Hs' & Hp & Hi).
    destruct (T2 Hs') as (T2' & Hs'' & Hp' & Hi').
    rewrite Hp in T2'. split; [eapply touches_only_trans; eassumption|].
    split; [assumption|]. split; congruence.
Qed.

(** X2.  The files are only ever appended to.  Whatever signals are
    delivered and however far [main] runs, from any state, every file
    holds at the end the text it held before, followed by what was added,
    and no file has disappeared: the program never truncates, rewrites or
    removes anything. *)
Theorem files_are_append_only evs s p :
  (exists suffix,
     content (files (run evs s)) p = content (files s) p +:+ suffix) /\
  (is_Some (files s !! p) -> is_Some (files (run evs s) !! p)).
Proof. apply (proj1 (run_files evs s)). Qed.

(** X3.  Past startup the log destination is the only file the program
    writes: whatever happens, every other file is left exactly as it was,
    and the destination and the interval read at startup never change. *)
Theorem only_the_log_is_written evs s p :
  started_up s = true ->
  p <> csv_path s ->
  files (run evs s) !! p = files s !! p /\
  csv_path (run evs s) = csv_path s /\
  interval_seconds (run evs s) = interval_seconds s.
Proof.
  intros Hs Hp. destruct (proj2 (run_files evs s) Hs) as (T & _ & Hc & Hi).
  split; [apply T, Hp | auto].
Qed.

(* ===================================================================== *)
(** * How the loop ends, and how it does not *)
(* ===================================================================== *)

(** A cycle either stays in the loop or ends the process with an error
    that is no [Exception]. *)
Lemma cycle_at a started s :
  at_ (cycle a started s) = at_ s \/
  exists e, cycle_error a = Some e /\ is_Exception e = false /\
            cycle a started s = goto (Crashed e) s.
Proof.
  unfold cycle, cycle_error, append_result, os.append_text.
  destruct (run_speed_test a) as [[[dl ul] ping]|e]; cbn [Py.bind].
  - destruct (io_open a) as [e|]; cbn [Py.bind]; [|left; reflexivity].
    destruct (is_Exception e) eqn:He; [left; reflexivity | right; eauto].
  - destruct (is_Exception e) eqn:He; [left; reflexivity | right; eauto].
Qed.

(** The only move that exits is the loop test with the flag set. *)
Lemma step_exits a s n :
  halted s = false -> at_ (step a s) = Exited n ->
  _STOP_REQUESTED s = true /\
  step a s = goto (Exited 0) (print "[isp-service-checker] Stopped." s).
Proof.
  unfold halted, step. destruct (at_ s) eqn:Hat; try discriminate; intros _.
  - destruct (startup_outcome a s) as [[e ->] | (i & p & fs1 & _ & _ & ->)];
      discriminate.
  - destruct (_STOP_REQUESTED s); cbn [negb]; [auto | discriminate].
  - destruct (at_ (cycle a started s)) eqn:Hc; st_simpl; rewrite ?Hc; discriminate.
  - destruct (_ && _); discriminate.
Qed.

(** The only move past startup that ends with an exception is a cycle in
    which an error that is no [Exception] was raised. *)
Lemma step_crashes a s e :
  started_up s = true -> halted s = false -> at_ (step a s) = Crashed e ->
  cycle_error a = Some e /\ is_Exception e = false.
Proof.
  unfold started_up, halted, step.
  destruct (at_ s) eqn:Hat; try discriminate; intros _ _.
  - destruct (negb _); discriminate.
  - destruct (cycle_at a started s) as [Hc | (e' & He & Hx & ->)].
    + rewrite Hc, Hat. discriminate.
    + st_simpl. intros [= <-]. auto.
  - destruct (_ && _); discriminate.
Qed.

Lemma run_without_signal evs : forall s,
  has_signal evs = false ->
  _STOP_REQUESTED (run evs s) = _STOP_REQUESTED s.
Proof.
  induction evs as [|[n|a] evs IH]; intros s H; [reflexivity|discriminate|].
  rewrite run_cons. cbn [react]. rewrite (IH _ H). apply step_keeps_stop.
Qed.

Lemma exit_invariant evs : forall s n,
  halted s = false -> at_ (run evs s) = Exited n ->
  n = 0 /\ _STOP_REQUESTED (run evs s) = true /\
  last (stdout (run evs s)) = Some "[isp-service-checker] Stopped.".
Proof.
  induction evs as [|ev evs IH]; intros s n Hlive Hexit.
  - unfold halted in Hlive. cbn in Hexit. rewrite Hexit in Hlive. discriminate.
  - rewrite run_cons in *. destruct (halted (react s ev)) eqn:Hh.
    + rewrite halted_stays in * by assumption.
      destruct ev as [k|a]; cbn [react] in *.
      * rewrite Hlive in *. unfold halted in Hh. st_simpl.
        unfold halted in Hlive. cbn in Hh. rewrite Hh in Hlive. discriminate.
      * destruct (step_exits a s n Hlive Hexit) as [Hstop E].
        rewrite E in *. st_simpl. injection Hexit as <-.
        repeat split; [assumption | apply last_snoc].
    + apply (IH _ n Hh Hexit).
Qed.

(** What startup ends at depends on the files and on the answers of the
    environment only. *)
Lemma startup_at a s s' :
  files s = files s' -> at_ (startup a s) = at_ (startup a s').
Proof.
  unfold startup. intros ->. cbv zeta.
  destruct (Py.bind _ _) as [[[i p] f]|e]; reflexivity.
Qed.

(** Past startup, an exception that ends the process was raised in a
    cycle and is no [Exception]. *)
Lemma crash_in_loop evs : forall s e,
  started_up s = true -> halted s = false ->
  at_ (run evs s) = Crashed e ->
  is_Exception e = false /\
  exists a, In (Run a) evs /\ cycle_error a = Some e.
Proof.
  induction evs as [|ev evs IH]; intros s e Hup Hlive Hcrash.
  - unfold halted in Hlive. cbn in Hcrash. rewrite Hcrash in Hlive. discriminate.
  - rewrite run_cons in Hcrash.
    destruct (proj2 (react_files s ev) Hup) as (_ & Hup' & _).
    destruct (halted (react s ev)) eqn:Hh.
    + rewrite halted_stays in Hcrash by assumption.
      destruct ev as [k|a]; cbn [react] in *.
      * rewrite Hlive in *. unfold halted in Hlive. cbn in Hcrash.
        rewrite Hcrash in Hlive. discriminate.
      * destruct (step_crashes a s e Hup Hlive Hcrash) as [Hc Hx].
        split; [assumption|]. exists a. split; [left; reflexivity | assumption].
    + destruct (IH _ e Hup' Hh Hcrash) as (Hx & a & Hin & Hc).
      split; [assumption|]. exists a. split; [right; assumption | assumption].
Qed.

(** From the start, an exception that ends the process was raised by the
    startup, or in a cycle and is then no [Exception]. *)
Lemma crash_from_start evs : forall s e,
  at_ s = Start -> at_ (run evs s) = Crashed e ->
  (exists a, In (Run a) evs /\ at_ (startup a s) = Crashed e) \/
  (is_Exception e = false /\
   exists a, In (Run a) evs /\ cycle_error a = Some e).
Proof.
  induction evs as [|ev evs IH]; intros s e Hat Hcrash.
  - cbn in Hcrash. congruence.
  - rewrite run_cons in Hcrash. destruct ev as [k|a]; cbn [react] in Hcrash.
    + assert (halted s = false) as Hlive by (unfold halted; now rewrite Hat).
      rewrite Hlive in Hcrash.
      destruct (IH (_handle_stop_signal k s) e Hat Hcrash)
        as [(a & Hin & Ha) | (Hx & a & Hin & Ha)].
      * left. exists a. split; [right; exact Hin|].
        rewrite <- Ha. apply startup_at. reflexivity.
      * right. split; [exact Hx|]. exists a. split; [right; exact Hin | exact Ha].
    + assert (step a s = startup a s) as E by (unfold step; now rewrite Hat).
      rewrite E in Hcrash.
      destruct (startup_outcome a s) as [[e' He'] | (i & p & fs1 & _ & _ & He')].
      * rewrite He' in Hcrash. rewrite halted_stays in Hcrash by reflexivity.
        left. exists a. split; [left; reflexivity|]. rewrite He'. exact Hcrash.
      * rewrite He' in Hcrash.
        apply crash_in_loop in Hcrash; [|reflexivity|reflexivity].
        destruct Hcrash as (Hx & a' & Hin & Ha).
        right. split; [exact Hx|]. exists a'. split; [right; exact Hin | exact Ha].
Qed.

(** X5.  How a run ends.  Whenever a run from the start has ended, either
    [main] returned, and then the status is 0, the stop flag is set, a
    stop signal was delivered at some point of the run and the last line
    on standard output is the farewell; or an exception left [main], the
    status is that of the exception (1 for an [Exception]), and the
    exception was raised by the startup of one of the moves of the run,
    or in one of its cycles and is then no instance of [Exception].
    There is no third way out, and the loop itself returns only after a
    stop request. *)
Theorem exit_only_after_stop_request evs fs w :
  exit_status (run evs (initial fs)) = Some w ->
  (at_ (run evs (initial fs)) = Exited 0 /\
   w = Status 0 /\
   _STOP_REQUESTED (run evs (initial fs)) = true /\
   has_signal evs = true /\
   last (stdout (run evs (initial fs))) = Some "[isp-service-checker] Stopped.")
  \/
  (exists e,
     at_ (run evs (initial fs)) = Crashed e /\
     w = ending_of_exception e /\
     (is_Exception e = true -> w = Status 1) /\
     ((exists a, In (Run a) evs /\ at_ (step a (initial fs)) = Crashed e) \/
      (is_Exception e = false /\
       exists a, In (Run a) evs /\ cycle_error a = Some e))).
Proof.
  unfold exit_status.
  destruct (at_ (run evs (initial fs))) as [| |started|k|k|m|e] eqn:Hat;
    try discriminate; intros [= <-].
  - left.
    destruct (exit_invariant evs (initial fs) m eq_refl Hat) as (Hn & Hstop & Hlast).
    subst m. do 3 (split; [first [reflexivity | assumption]|]).
    split; [|assumption].
    destruct (has_signal evs) eqn:Hs; [reflexivity|].
    rewrite (run_without_signal evs (initial fs) Hs) in Hstop. discriminate.
  - right. exists e. split; [reflexivity|]. split; [reflexivity|].
    split; [apply ending_of_Exception|].
    destruct (crash_from_start evs (initial fs) e eq_refl Hat)
      as [(a & Hin & Ha) | H]; [left | right; exact H].
    exists a. split; [exact Hin|]. exact Ha.
Qed.

(** X6.  Past startup, no [Exception] ends the process.  If a run that
    begins in the loop ends with an exception out of [main], that
    exception was raised in one of the cycles of the run and is no
    instance of [Exception] (the class the handler of line 114 names);
    every error that is an [Exception] was caught. *)
Theorem only_non_exceptions_leave_the_loop evs : forall s e,
  started_up s = true -> halted s = false ->
  at_ (run evs s) = Crashed e ->
  is_Exception e = false /\
  exists a, In (Run a) evs /\ cycle_error a = Some e.
Proof.
  induction evs as [|ev evs IH]; intros s e Hup Hlive Hcrash.
  - unfold halted in Hlive. cbn in Hcrash. rewrite Hcrash in Hlive. discriminate.
  - rewrite run_cons in Hcrash.
    destruct (proj2 (react_files s ev) Hup) as (_ & Hup' & _).
    destruct (halted (react s ev)) eqn:Hh.
    + rewrite halted_stays in Hcrash by assumption.
      destruct ev as [k|a]; cbn [react] in *.
      * rewrite Hlive in *. unfold halted in Hlive. cbn in Hcrash.
        rewrite Hcrash in Hlive. discriminate.
      * destruct (step_crashes a s e Hup Hlive Hcrash) as [Hc Hx].
        split; [assumption|]. exists a. split; [left; reflexivity | assumption].
    + destruct (IH _ e Hup' Hh Hcrash) as (Hx & a & Hin & Hc).
      split; [assumption|]. exists a. split; [right; assumption | assumption].
Qed.

(** X7.  The loop runs until it is signalled.  Past startup, with the
    stop flag clear, as long as no signal is delivered and the errors of
    the cycles are instances of [Exception], the process is alive after
    any number of moves: it never ends on its own. *)
Theorem loop_runs_until_signalled evs : forall s,
  started_up s = true -> halted s = false -> _STOP_REQUESTED s = false ->
  has_signal evs = false ->
  (forall a e, In (Run a) evs -> cycle_error a = Some e -> is_Exception e = true) ->
  halted (run evs s) = false /\ _STOP_REQUESTED (run evs s) = false.
Proof.
  induction evs as [|[k|a] evs IH]; intros s Hup Hlive Hstop Hsig Herr;
    [auto | discriminate |].
  rewrite run_cons. cbn [react].
  destruct (proj2 (react_files s (Run a)) Hup) as (_ & Hup' & _).
  cbn [react] in Hup'.
  apply IH; auto.
  - destruct (halted (step a s)) eqn:Hh; [|reflexivity]. exfalso.
    unfold halted in Hh. destruct (at_ (step a s)) eqn:Hat; try discriminate.
    + destruct (step_exits a s status Hlive Hat) as [Hs _]. congruence.
    + destruct (step_crashes a s e Hup Hlive Hat) as [Hc Hx].
      rewrite (Herr a e (or_introl eq_refl) Hc) in Hx. discriminate.
  - now rewrite step_keeps_stop.
  - intros a' e' Hin. apply Herr. right. exact Hin.
Qed.


(* ===================================================================== *)
(** * What the log is made of *)
(* ===================================================================== *)

Lemma concat_lines_app (l1 l2 : list string) :
  concat_lines (l1 ++ l2) = concat_lines l1 +:+ concat_lines l2.
Proof.
  induction l1 as [|x l1 IH]; cbn; [reflexivity|].
  now rewrite IH, append_assoc.
Qed.

Lemma measured_in_cons ev evs x : measured_in evs x -> measured_in (ev :: evs) x.
Proof.
  destruct x as [[[w dl] ul] ping]. intros (a & Hin & Ha).
  exists a. split; [right; exact Hin | exact Ha].
Qed.

Lemma begun_in_cons ev evs x : begun_in evs x -> begun_in (ev :: evs) x.
Proof.
  destruct x as [[[w dl] ul] ping]. intros (a & Hin & Ha).
  exists a. split; [right; exact Hin | exact Ha].
Qed.

(** The record of a sample of finite numbers. *)
Lemma sample_line_timed x :
  finite_sample x = true -> timed_record (sample_line x).
Proof.
  destruct x as [[[w dl] ul] ping]. cbn [finite_sample sample_line].
  intros H. apply andb_true_iff in H as [H Hp].
  apply andb_true_iff in H as [Hd Hu].
  exists (isoformat (replace_tzinfo utc w)), (format_2f dl), (format_2f ul),
         (format_2f ping).
  split; [reflexivity|].
  split; [apply isoformat_utc|]. split; [apply isoformat_utc|].
  split; [|split]; apply format_2f_two_decimals; assumption.
Qed.

(** A cycle begins at the loop test only, at the instant
    [datetime.utcnow()] returns there. *)
Lemma react_begins s ev w :
  at_ (react s ev) = InCycle w ->
  at_ s = InCycle w \/ exists a, ev = Run a /\ utcnow a = w.
Proof.
  destruct ev as [n|a]; cbn [react].
  - destruct (halted s); st_simpl; auto.
  - unfold step. destruct (at_ s) eqn:Hat.
    + destruct (startup_outcome a s) as [[e ->] | (i & p & fs1 & _ & _ & ->)];
        discriminate.
    + destruct (negb _); st_simpl; [|discriminate].
      intros [= <-]. right. eauto.
    + destruct (at_ (cycle a started s)) eqn:Hc; st_simpl; rewrite ?Hc;
        discriminate.
    + destruct (_ && _); discriminate.
    + discriminate.
    + rewrite Hat. discriminate.
    + rewrite Hat. discriminate.
Qed.

(** Past startup, an event adds to the log the record of at most one
    sample, and nothing else: the sample measured in that move, stamped
    with the start of the cycle in progress. *)
Lemma react_appends_records s ev :
  started_up s = true ->
  exists samples : list sample,
    content (files (react s ev)) (csv_path s) =
      content (files s) (csv_path s) +:+ concat_lines (map sample_line samples) /\
    Forall (fun x => measured_in [ev] x /\ begun_at s x) samples.
Proof.
  intros Hup.
  assert (content (files s) (csv_path s) =
          content (files s) (csv_path s) +:+ concat_lines (map sample_line []))
    as Hsame by (cbn; now rewrite append_empty_r).
  destruct ev as [n|a]; cbn [react].
  - exists []. split; [destruct (halted s); exact Hsame | constructor].
  - unfold started_up in Hup. unfold step.
    destruct (at_ s) eqn:Hat; try discriminate.
    + exists []. split; [destruct (negb _); exact Hsame | constructor].
    + assert (files (match at_ (cycle a started s) with
                     | Crashed _ => cycle a started s
                     | _ => goto (WaitTest 0) (cycle a started s)
                     end) = files (cycle a started s)) as ->
        by (destruct (at_ (cycle a started s)); reflexivity).
      destruct (cycle_files a started s) as [-> | (dl & ul & ping & Hm & _ & ->)].
      * exists []. split; [exact Hsame | constructor].
      * exists [(started, dl, ul, ping)]. split.
        -- unfold content at 1.
           rewrite lookup_insert_eq. cbn. now rewrite append_empty_r.
        -- constructor; [|constructor]. split; [|exact Hat].
           exists a. split; [left; reflexivity | exact Hm].
    + exists []. split; [destruct (_ && _); exact Hsame | constructor].
    + exists []. split; [exact Hsame | constructor].
    + exists []. split; [exact Hsame | constructor].
    + exists []. split; [exact Hsame | constructor].
Qed.

Lemma run_appends_records evs : forall s,
  started_up s = true ->
  exists samples : list sample,
    content (files (run evs s)) (csv_path s) =
      content (files s) (csv_path s) +:+ concat_lines (map sample_line samples) /\
    Forall (fun x => measured_in evs x /\ (begun_at s x \/ begun_in evs x)) samples.
Proof.
  induction evs as [|ev evs IH]; intros s Hup.
  - exists []. split; [cbn; now rewrite append_empty_r | constructor].
  - rewrite run_cons.
    destruct (proj2 (react_files s ev) Hup) as (_ & Hup' & Hp & _).
    destruct (react_appends_records s ev Hup) as (l1 & H1 & F1).
    destruct (IH (react s ev) Hup') as (l2 & H2 & F2). rewrite Hp in H2.
    exists (l1 ++ l2). split.
    + now rewrite H2, H1, map_app, concat_lines_app, append_assoc.
    + apply Forall_app. split.
      * eapply List.Forall_impl; [|exact F1].
        intros [[[w dl] ul] ping] [(a & Hin & Ha) Hb]. split.
        -- exists a. split; [|exact Ha].
           destruct Hin as [<-|[]]. left; reflexivity.
        -- left. exact Hb.
      * eapply List.Forall_impl; [|exact F2].
        intros x [Hm Hb]. split; [apply measured_in_cons, Hm|].
        destruct Hb as [Hb|Hb]; [|right; apply begun_in_cons, Hb].
        destruct x as [[[w dl] ul] ping]. cbn [begun_at] in Hb.
        destruct (react_begins s ev w Hb) as [Hs | (a & -> & Ha)].
        -- left. exact Hs.
        -- right. exists a. split; [left; reflexivity | exact Ha].
Qed.

(** From the loop test on, every record added is that of a sample
    measured in the run and stamped at the start of one of its cycles. *)
Lemma run_appends_measured evs s :
  at_ s = LoopTop ->
  exists samples : list sample,
    content (files (run evs s)) (csv_path s) =
      content (files s) (csv_path s) +:+ concat_lines (map sample_line samples) /\
    Forall (fun x => measured_in evs x /\ begun_in evs x) samples.
Proof.
  intros Hat.
  destruct (run_appends_records evs s) as (samples & Hc & F).
  { unfold started_up. now rewrite Hat. }
  exists samples. split; [exact Hc|].
  eapply List.Forall_impl; [|exact F].
  intros [[[w dl] ul] ping] [Hm [Hb|Hb]]; [|split; assumption].
  cbn [begun_at] in Hb. congruence.
Qed.

(** Startup, when the configuration loads and store initialization
    returns. *)
Lemma startup_returns a fs interval path fs1 :
  load_config "config.toml" fs = Ok (app_dict interval path) ->
  ensure_csv_with_headers (io_stat a) (io_mkdir a) (io_open a) path fs = Ok fs1 ->
  at_ (step a (initial fs)) = LoopTop /\
  csv_path (step a (initial fs)) = path /\
  files (step a (initial fs)) = fs1.
Proof.
  intros Hload Hens. unfold step. cbn [at_ initial].
  rewrite (startup_loaded a (initial fs) interval path Hload). cbn [files initial].
  rewrite Hens. auto.
Qed.

(** X4.  The log is the header followed by records, and nothing else.
    When the process starts on a log that is missing or empty and store
    initialization returns, then at every later moment, whatever signals
    arrive and however many cycles succeed or fail, the log is the header
    line followed by the records of some samples: no second header, no
    partial or foreign line.  Each of these samples holds the three
    numbers a measurement of the run returned and the instant at which a
    cycle of the run began; the record of a sample of finite numbers is a
    line of four fields, a timestamp that ends in the UTC marker and
    three numbers with two decimal places, so when every measurement of
    the run is finite every line after the header has that form. *)
Theorem header_stays_first a fs interval path fs1 evs :
  load_config "config.toml" fs = Ok (app_dict interval path) ->
  content fs path = EmptyString ->
  ensure_csv_with_headers (io_stat a) (io_mkdir a) (io_open a) path fs = Ok fs1 ->
  exists samples : list sample,
    content (files (run evs (step a (initial fs)))) path =
      header_line +:+ concat_lines (map sample_line samples) /\
    Forall (fun x => measured_in evs x /\ begun_in evs x) samples /\
    Forall (fun x => finite_sample x = true -> timed_record (sample_line x))
           samples /\
    ((forall b dl ul ping,
        In (Run b) evs -> run_speed_test b = Ok (dl, ul, ping) ->
        is_finite dl && is_finite ul && is_finite ping = true) ->
     Forall timed_record (map sample_line samples)).
Proof.
  intros Hload Hc Hens.
  destruct (startup_returns a fs interval path fs1 Hload Hens) as (Hat & Hp & E).
  destruct (run_appends_measured evs _ Hat) as (samples & Hr & F).
  exists samples. split; [|split; [exact F|split]].
  - rewrite Hp in Hr. rewrite Hr, E.
    rewrite (ensure_csv_with_headers_writes _ _ _ _ _ _ Hc Hens).
    unfold content at 1. now rewrite lookup_insert_eq.
  - apply List.Forall_forall. intros x _. apply sample_line_timed.
  - intros Hfin. apply List.Forall_map. eapply List.Forall_impl; [|exact F].
    intros [[[w dl] ul] ping] [(b & Hin & Hb) _].
    apply sample_line_timed. cbn [finite_sample]. eapply Hfin; eassumption.
Qed.

(** X17.  A restart continues the log.  When the process starts on a log
    that already holds something and the size of the file can be read,
    startup writes nothing, not even a header, and at every later moment
    the log is its former text followed by the records appended since.
    When reading the size raises an [OSError] and the file can be
    written, startup appends a header line to the former text, and the
    records of the run follow that second header.  Any other exception of
    the size call ends the process at startup with the files as they
    were.  In every case what earlier runs stored is kept as it was. *)
Theorem restart_continues_the_log a fs interval path evs :
  load_config "config.toml" fs = Ok (app_dict interval path) ->
  content fs path <> EmptyString ->
  (io_stat a = None ->
     files (step a (initial fs)) = fs /\
     exists samples : list sample,
       content (files (run evs (step a (initial fs)))) path =
         content fs path +:+ concat_lines (map sample_line samples) /\
       Forall (fun x => measured_in evs x /\ begun_in evs x) samples) /\
  (forall e,
     io_stat a = Some e -> is_OSError e = true ->
     first_fault (io_mkdir a) (io_open a) = None ->
     files (step a (initial fs)) = <[path := content fs path +:+ header_line]> fs /\
     exists samples : list sample,
       content (files (run evs (step a (initial fs)))) path =
         content fs path +:+ header_line
           +:+ concat_lines (map sample_line samples) /\
       Forall (fun x => measured_in evs x /\ begun_in evs x) samples) /\
  (forall e,
     io_stat a = Some e -> is_OSError e = false ->
     at_ (step a (initial fs)) = Crashed e /\
     files (run evs (step a (initial fs))) = fs).
Proof.
  intros Hload Hc. split; [|split].
  - intros Hio.
    pose proof (ensure_csv_with_headers_keeps (io_mkdir a) (io_open a) path fs Hc)
      as Hens.
    rewrite <- Hio in Hens.
    destruct (startup_returns a fs interval path fs Hload Hens) as (Hat & Hp & E).
    split; [exact E|].
    destruct (run_appends_measured evs _ Hat) as (samples & Hr & F).
    exists samples. split; [|exact F]. rewrite Hp, E in Hr. exact Hr.
  - intros e Hio He Hf.
    assert (ensure_csv_with_headers (io_stat a) (io_mkdir a) (io_open a) path fs
            = Ok (<[path := content fs path +:+ header_line]> fs)) as Hens.
    { apply ensure_csv_with_headers_goes_through; [|exact Hf].
      rewrite header_needed_of_populated, Hio, He by assumption. reflexivity. }
    destruct (startup_returns a fs interval path _ Hload Hens) as (Hat & Hp & E).
    split; [exact E|].
    destruct (run_appends_measured evs _ Hat) as (samples & Hr & F).
    exists samples. split; [|exact F]. rewrite Hp, E in Hr. rewrite Hr.
    unfold content at 1. rewrite lookup_insert_eq. cbn [default from_option id].
    now rewrite append_assoc.
  - intros e Hio He.
    assert (step a (initial fs) = goto (Crashed e) (initial fs)) as ->.
    { unfold step. cbn [at_ initial].
      rewrite (startup_loaded a (initial fs) interval path Hload).
      cbn [files initial].
      rewrite ensure_csv_with_headers_cases, header_needed_of_populated
        by assumption.
      rewrite Hio, He. reflexivity. }
    split; [reflexivity|]. rewrite halted_stays by reflexivity. reflexivity.
Qed.

(** X16.  The wait does not depend on how the cycle went.  After any
    cycle that leaves the process alive, successful or failed, and with no
    stop signal, the program serves [interval_seconds] sleeps of one
    second, neither more nor fewer, and then begins the next cycle: the
    time a measurement took or the error it met never shortens or
    lengthens the wait. *)
Theorem wait_is_the_same_after_any_cycle a started s
    (waits : list answers) (a1 a2 : answers) :
  at_ s = InCycle started ->
  _STOP_REQUESTED s = false ->
  (forall e, cycle_error a = Some e -> is_Exception e = true) ->
  length waits = (2 * Z.to_nat (interval_seconds s))%nat ->
  let s' := run (Run a :: map Run (waits ++ [a1; a2])) s in
  at_ s' = InCycle (utcnow a2) /\
  sleeps s' = sleeps s ++ repeat 1 (Z.to_nat (interval_seconds s)).
Proof.
  intros Hat Hstop Herr Hlen. cbv zeta. rewrite run_cons. cbn [react].
  assert (at_ (step a s) = WaitTest 0 /\
          _STOP_REQUESTED (step a s) = false /\
          interval_seconds (step a s) = interval_seconds s /\
          sleeps (step a s) = sleeps s) as (Hat' & Hstop' & Hi & Hs).
  { rewrite step_keeps_stop.
    destruct (cycle_keeps a started s) as (_ & Hi & _ & Hs).
    unfold step. rewrite Hat.
    destruct (cycle_at a started s) as [Hc | (e & He & Hx & _)].
    - rewrite Hc, Hat. st_simpl. auto.
    - rewrite (Herr e He) in Hx. discriminate. }
  rewrite next_cycle_after_wait by (rewrite ?Hi; assumption).
  st_simpl. rewrite Hi, Hs. auto.
Qed.

(* ===================================================================== *)
(** * Successful cycles, and stops around them *)
(* ===================================================================== *)

(** A cycle whose measurement and append succeed. *)
Lemma cycle_succeeded_exactly a started s dl ul ping :
  run_speed_test a = Ok (dl, ul, ping) -> io_open a = None ->
  cycle a started s =
    State (at_ s) (_STOP_REQUESTED s) (interval_seconds s) (csv_path s)
          (<[csv_path s := content (files s) (csv_path s)
                             +:+ record_line started dl ul ping]> (files s))
          (stdout s ++ [status_line started dl ul ping])
          (stderr s) (sleeps s).
Proof.
  unfold cycle, append_result, os.append_text. intros -> ->.
  cbn [Py.bind]. rewrite result_row_written. reflexivity.
Qed.

(** The move of [main] through such a cycle. *)
Lemma in_cycle_succeeds a started s dl ul ping :
  at_ s = InCycle started ->
  run_speed_test a = Ok (dl, ul, ping) -> io_open a = None ->
  step a s =
    State (WaitTest 0) (_STOP_REQUESTED s) (interval_seconds s) (csv_path s)
          (<[csv_path s := content (files s) (csv_path s)
                             +:+ record_line started dl ul ping]> (files s))
          (stdout s ++ [status_line started dl ul ping])
          (stderr s) (sleeps s).
Proof.
  intros Hat Hm Hio. unfold step. rewrite Hat.
  rewrite (cycle_succeeded_exactly a started s dl ul ping Hm Hio).
  st_simpl. rewrite Hat. reflexivity.
Qed.

(** X1.  A successful cycle records the instant at which it began.  From
    the loop test with the flag clear, when the measurement returns and
    the append goes through, the program appends exactly one record, whose
    timestamp is the UTC time read before the measurement was started (not
    a time read when the measurement had ended), prints one status line
    with the same instant and the same three two-decimal numbers on
    standard output, nothing on standard error, and goes to the wait. *)
Theorem successful_cycle_records_its_start a1 a2 s dl ul ping :
  at_ s = LoopTop -> _STOP_REQUESTED s = false ->
  run_speed_test a2 = Ok (dl, ul, ping) -> io_open a2 = None ->
  let s' := run [Run a1; Run a2] s in
  at_ s' = WaitTest 0 /\
  files s' = <[csv_path s := content (files s) (csv_path s)
                 +:+ isoformat (replace_tzinfo utc (utcnow a1)) +:+ ","
                 +:+ format_2f dl +:+ "," +:+ format_2f ul +:+ ","
                 +:+ format_2f ping +:+ Csv.lineterminator]> (files s) /\
  stdout s' = stdout s ++
    ["[" +:+ isoformat (utcnow a1) +:+ "Z] Download: " +:+ format_2f dl
         +:+ " Mbps | Upload: " +:+ format_2f ul
         +:+ " Mbps | Ping: " +:+ format_2f ping +:+ " ms"] /\
  stderr s' = stderr s /\
  sleeps s' = sleeps s.
Proof.
  intros Hat Hstop Hm Hio. cbv zeta. rewrite !run_cons. cbn [react run fold_left].
  rewrite (loop_top_enters a1 s Hat Hstop).
  rewrite (in_cycle_succeeds a2 (utcnow a1) (goto (InCycle (utcnow a1)) s)
             dl ul ping eq_refl Hm Hio).
  st_simpl. repeat split.
Qed.

(** X8.  A stop signal does not abort the measurement in progress.  When
    the signal arrives while a cycle is under way and the measurement then
    succeeds, the sample is still appended and reported; after that the
    process serves no sleep at all and exits with status 0 in two more
    moves. *)
Theorem stop_during_measurement_keeps_the_sample
    signum a a1 a2 started s dl ul ping :
  at_ s = InCycle started ->
  run_speed_test a = Ok (dl, ul, ping) -> io_open a = None ->
  let s' := run [Signal signum; Run a; Run a1; Run a2] s in
  at_ s' = Exited 0 /\
  files s' = <[csv_path s := content (files s) (csv_path s)
                 +:+ record_line started dl ul ping]> (files s) /\
  stdout s' = stdout s ++ [status_line started dl ul ping;
                           "[isp-service-checker] Stopped."] /\
  stderr s' = stderr s /\
  sleeps s' = sleeps s.
Proof.
  intros Hat Hm Hio. cbv zeta. rewrite !run_cons. cbn [react run fold_left].
  assert (halted s = false) as -> by (unfold halted; now rewrite Hat).
  rewrite (in_cycle_succeeds a started (_handle_stop_signal signum s)
             dl ul ping Hat Hm Hio).
  st_simpl.
  rewrite (wait_test_leaves a1 _ 0) by (st_simpl; auto).
  rewrite loop_top_exits by reflexivity.
  st_simpl. rewrite <- app_assoc. repeat split.
Qed.


(* ===================================================================== *)
(** * Configurations that do not load *)
(* ===================================================================== *)

(** X10.  What [load_config] does with a file that exists but is not a
    usable configuration.  When the parser rejects the text, its error
    comes out of [load_config] unchanged; when the file parses but [app]
    is not a table (a number, a string, a list), the lookup of the
    interval raises [AttributeError]; when the file parses and has no
    [app] entry at all, the result is the same as with no file: interval
    300 and log destination [internet_metrics.csv]. *)
Theorem load_config_on_unusable_files config_path fs text :
  fs !! config_path = Some text ->
  (forall e, tomllib_loads text = Raise e ->
     load_config config_path fs = Raise e) /\
  (forall data v,
     tomllib_loads text = Ok data -> data !! "app" = Some v ->
     (forall d, v <> VDict d) ->
     load_config config_path fs =
       Raise (Exn AttributeError "object has no attribute 'get'")) /\
  (forall data,
     tomllib_loads text = Ok data -> data !! "app" = None ->
     load_config config_path fs = Ok (app_dict 300 "internet_metrics.csv")).
Proof.
  intros Hf. split; [|split].
  - intros e He. unfold load_config.
    rewrite (proj2 (isfile_true fs config_path)) by (rewrite Hf; eauto).
    rewrite Hf. cbn. rewrite He. reflexivity.
  - intros data v Hp Hv Hnd. rewrite (load_config_parsed _ _ _ _ Hf Hp).
    cbv zeta. unfold Builtins.dict_get. rewrite Hv. cbn.
    destruct v; try reflexivity. exfalso. eapply Hnd. reflexivity.
  - intros data Hp Hv. rewrite (load_config_parsed _ _ _ _ Hf Hp).
    cbv zeta.
    assert (Builtins.dict_get data "app" (VDict ∅) = VDict ∅) as ->
      by (unfold Builtins.dict_get; rewrite Hv; reflexivity).
    cbn [Builtins.get Py.bind]. unfold Builtins.dict_get.
    rewrite !lookup_empty. reflexivity.
Qed.

(** X11.  A configuration that does not load is fatal before anything is
    done.  When [load_config] raises at startup, the exception leaves
    [main]: no status line is printed, no file is created or changed (the
    store is not initialized), and the process stays ended whatever is
    delivered afterwards; the loop is never entered. *)
Theorem configuration_failure_is_fatal a s e :
  at_ s = Start ->
  load_config "config.toml" (files s) = Raise e ->
  let s' := step a s in
  at_ s' = Crashed e /\
  files s' = files s /\
  stdout s' = stdout s /\
  stderr s' = stderr s /\
  forall evs, run evs s' = s'.
Proof.
  intros Hat Hload s'.
  assert (s' = goto (Crashed e) s) as ->
    by (unfold s', step, startup; rewrite Hat, Hload; reflexivity).
  repeat split. intros evs. apply halted_stays. reflexivity.
Qed.


(* ===================================================================== *)
(** * Rows, in order and in number *)
(* ===================================================================== *)

Lemma append_result_content io csv_path when dl ul ping fs fs' :
  append_result io csv_path when dl ul ping fs = Ok fs' ->
  fs' = <[csv_path := content fs csv_path +:+ record_line when dl ul ping]> fs.
Proof.
  unfold append_result. rewrite result_row_written. intros H.
  apply append_text_extends in H as (H & _). exact H.
Qed.

(** X12.  Appends compose in call order.  Any number of samples appended
    one after the other all return, and leave in the destination its
    former text followed by the records of the samples in the order of
    the calls, none lost, merged or reordered; no other file changes. *)
Theorem appends_keep_call_order samples : forall csv_path fs,
  exists fs',
    append_all samples csv_path fs = Ok fs' /\
    content fs' csv_path =
      content fs csv_path +:+ concat_lines (map sample_line samples) /\
    forall p, p <> csv_path -> fs' !! p = fs !! p.
Proof.
  induction samples as [|[[[when dl] ul] ping] samples IH]; intros csv_path fs.
  - exists fs. cbn. rewrite append_empty_r. auto.
  - cbn [append_all map concat_lines sample_line].
    destruct (append_result None csv_path when dl ul ping fs) as [fs1|e] eqn:E;
      [|unfold append_result, os.append_text in E; discriminate].
    apply append_result_content in E. cbn [Py.bind].
    destruct (IH csv_path fs1) as (fs' & Hall & Hc & Ho).
    exists fs'. split; [exact Hall|]. subst fs1. split.
    + rewrite Hc. unfold content at 1. rewrite lookup_insert_eq.
      cbn [default from_option id]. now rewrite append_assoc.
    + intros p Hp. rewrite (Ho p Hp). apply lookup_insert_ne. congruence.
Qed.

(** X13.  A log recreated by an append has no header at its top.  When a
    sample is appended to a destination that does not exist, the file is
    created holding that record alone.  A later store initialization that
    can read the size of the file finds it non-empty and adds nothing;
    one whose size call raises an [OSError] appends the header after the
    record.  Either way the record stays the first line: the header is at
    the top only of a file that was missing or empty when it was
    written. *)
Theorem append_to_missing_log_leaves_no_header
    io_mkdir io_open csv_path when dl ul ping fs fs1 :
  fs !! csv_path = None ->
  append_result None csv_path when dl ul ping fs = Ok fs1 ->
  content fs1 csv_path = record_line when dl ul ping /\
  ensure_csv_with_headers None io_mkdir io_open csv_path fs1 = Ok fs1 /\
  (forall e, is_OSError e = true ->
     ensure_csv_with_headers (Some e) None None csv_path fs1 =
       Ok (<[csv_path := record_line when dl ul ping +:+ header_line]> fs1)) /\
  (forall io_stat fs2,
     ensure_csv_with_headers io_stat io_mkdir io_open csv_path fs1 = Ok fs2 ->
     exists suffix,
       content fs2 csv_path = record_line when dl ul ping +:+ suffix).
Proof.
  intros Hnone H. apply append_result_content in H. subst fs1.
  assert (content (<[csv_path := content fs csv_path +:+ record_line when dl ul ping]> fs)
            csv_path = record_line when dl ul ping) as E.
  { unfold content. rewrite lookup_insert_eq, Hnone. reflexivity. }
  assert (record_line when dl ul ping <> EmptyString) as Hne.
  { unfold record_line. destruct (isoformat _); discriminate. }
  split; [exact E|]. split; [|split].
  - apply ensure_csv_with_headers_keeps. rewrite E. exact Hne.
  - intros e He.
    rewrite ensure_csv_with_headers_after_stat_error
      by (rewrite ?E; assumption).
    cbn [os.makedirs Py.bind]. unfold os.append_text.
    fold (content (<[csv_path := content fs csv_path +:+ record_line when dl ul ping]> fs)
            csv_path).
    rewrite E. reflexivity.
  - intros io_stat fs2 Hens.
    destruct (ensure_csv_with_headers_appends _ _ _ _ _ _ Hens) as [->| ->].
    + exists EmptyString. rewrite E. now rewrite append_empty_r.
    + exists header_line. unfold content at 1. rewrite lookup_insert_eq.
      cbn [default from_option id]. now rewrite E.
Qed.

Lemma count_char_app c (a b : string) :
  count_char c (a +:+ b) = (count_char c a + count_char c b)%nat.
Proof. induction a as [|x a IH]; simpl; [reflexivity | rewrite IH; lia]. Qed.

Lemma plain_has_no_line_feed s : all_chars plain s = true -> rows s = 0%nat.
Proof.
  unfold rows. induction s as [|c s IH]; simpl; [reflexivity|].
  intros H. apply andb_true_iff in H as [Hc Hs]. rewrite (IH Hs).
  destruct (Ascii.eqb_spec c LF) as [->|]; [discriminate Hc | reflexivity].
Qed.

(** A record is one line. *)
Lemma record_line_is_one_row when dl ul ping :
  rows (record_line when dl ul ping) = 1%nat.
Proof.
  unfold record_line, rows. rewrite !count_char_app.
  fold (rows (isoformat (replace_tzinfo utc when))).
  fold (rows (format_2f dl)). fold (rows (format_2f ul)).
  fold (rows (format_2f ping)).
  rewrite (plain_has_no_line_feed _ (proj2 (isoformat_utc when))).
  rewrite !(plain_has_no_line_feed _ (format_2f_plain _)).
  reflexivity.
Qed.

Lemma cycle_crashed a started s e :
  cycle_error a = Some e -> is_Exception e = false ->
  cycle a started s = goto (Crashed e) s.
Proof.
  unfold cycle_error, cycle, append_result, os.append_text. intros He Hex.
  destruct (run_speed_test a) as [[[dl ul] ping]|e0]; cbn [Py.bind].
  - rewrite He; cbn [Py.bind]. rewrite Hex. reflexivity.
  - injection He as ->. rewrite Hex. reflexivity.
Qed.

(** A cycle that ends with an error stores and reports nothing. *)
Lemma in_cycle_with_error a started s e :
  at_ s = InCycle started -> cycle_error a = Some e ->
  files (step a s) = files s /\ stdout (step a s) = stdout s /\
  farewell (step a s) = 0%nat.
Proof.
  intros Hat He. unfold step, farewell. rewrite Hat.
  destruct (is_Exception e) eqn:Hx.
  - rewrite (cycle_failed a started s e He Hx). st_simpl. rewrite Hat. auto.
  - rewrite (cycle_crashed a started s e He Hx). st_simpl. auto.
Qed.

(** Status lines not matched by a row: a quantity no event changes. *)
Lemma react_keeps_balance s ev :
  started_up s = true ->
  (rows (content (files (react s ev)) (csv_path s)) + length (stdout s)
     + farewell (react s ev) =
   rows (content (files s) (csv_path s)) + length (stdout (react s ev))
     + farewell s)%nat.
Proof.
  intros Hup. destruct ev as [n|a]; cbn [react].
  - destruct (halted s); reflexivity.
  - unfold started_up in Hup. unfold farewell at 2.
    destruct (at_ s) eqn:Hat; try discriminate.
    + destruct (_STOP_REQUESTED s) eqn:Hs.
      * rewrite loop_top_exits by assumption. unfold farewell. st_simpl.
        rewrite length_app. cbn. lia.
      * rewrite loop_top_enters by assumption. reflexivity.
    + destruct (cycle_error a) as [e|] eqn:He.
      * destruct (in_cycle_with_error a started s e Hat He) as (-> & -> & ->).
        lia.
      * unfold cycle_error in He.
        destruct (run_speed_test a) as [[[dl ul] ping]|e] eqn:Hm; [|discriminate].
        rewrite (in_cycle_succeeds a started s dl ul ping Hat Hm He).
        unfold farewell. st_simpl. unfold content at 1.
        rewrite lookup_insert_eq. cbn [default from_option id]. unfold rows.
        rewrite count_char_app. fold (rows (record_line started dl ul ping)).
        rewrite record_line_is_one_row, length_app. cbn. unfold rows. lia.
    + unfold step. rewrite Hat. destruct (_ && _); reflexivity.
    + rewrite (sleeping_ends a s slept Hat). reflexivity.
    + unfold step, farewell. rewrite Hat. st_simpl. rewrite Hat. lia.
    + unfold step, farewell. rewrite Hat. st_simpl. rewrite Hat. lia.
Qed.

(** X14.  One status line per row.  Along every run that begins in the
    loop, the number of rows added to the log equals the number of lines
    added to standard output, the farewell apart: a sample is reported
    exactly when it is stored, and nothing else prints there. *)
Theorem one_status_line_per_row evs : forall s,
  started_up s = true -> halted s = false ->
  (rows (content (files (run evs s)) (csv_path s)) + length (stdout s)
     + farewell (run evs s) =
   rows (content (files s) (csv_path s)) + length (stdout (run evs s)))%nat.
Proof.
  assert (forall evs s, started_up s = true ->
            (rows (content (files (run evs s)) (csv_path s)) + length (stdout s)
               + farewell (run evs s) =
             rows (content (files s) (csv_path s)) + length (stdout (run evs s))
               + farewell s)%nat) as H.
  { clear evs. induction evs as [|ev evs IH]; intros s Hup; [cbn; lia|].
    rewrite run_cons.
    destruct (proj2 (react_files s ev) Hup) as (_ & Hup' & Hp & _).
    pose proof (IH (react s ev) Hup') as H1. rewrite Hp in H1.
    pose proof (react_keeps_balance s ev Hup) as H2. lia. }
  intros s Hup Hlive. rewrite (H evs s Hup).
  unfold halted in Hlive. unfold farewell.
  destruct (at_ s); try discriminate; lia.
Qed.


(* ===================================================================== *)
(** * The measurement: what the unit conversion keeps *)
(* ===================================================================== *)

Lemma shr_1_nonneg mrs : 0 <= shr_m mrs -> 0 <= shr_m (shr_1 mrs).
Proof. destruct mrs as [[|[p|p|]|[p|p|]] r s]; cbn; lia. Qed.

Lemma iter_pos_keeps {A} (P : A -> Prop) (f : A -> A) :
  (forall x, P x -> P (f x)) ->
  forall n x, P x -> P (SpecFloat.iter_pos f n x).
Proof.
  intros Hf. induction n as [n IH|n IH|]; intros x Hx; cbn; auto.
Qed.

Lemma shr_fexp_nonneg m e l :
  0 <= m -> 0 <= shr_m (fst (shr_fexp 53 1024 m e l)).
Proof.
  intros Hm. unfold shr_fexp, shr.
  assert (0 <= shr_m (shr_record_of_loc m l)) as H0
    by (destruct l as [|[]]; exact Hm).
  destruct (_ - e) as [|p|p]; cbn [fst]; try exact H0.
  apply (iter_pos_keeps (fun r => 0 <= shr_m r)); [apply shr_1_nonneg | exact H0].
Qed.

Lemma round_nearest_even_nonneg m l : 0 <= m -> 0 <= round_nearest_even m l.
Proof.
  intros Hm. unfold round_nearest_even.
  destruct l as [|[]]; try destruct (Z.even m); lia.
Qed.

(** Rounding a magnitude under the plus sign gives no NaN and nothing
    negative. *)
Lemma binary_round_aux_nonneg m e l :
  0 <= m -> nonneg (binary_round_aux 53 1024 false m e l) = true.
Proof.
  intros Hm. unfold binary_round_aux.
  pose proof (shr_fexp_nonneg m e l Hm) as H1.
  destruct (shr_fexp 53 1024 m e l) as [mrs' e']. cbn [fst] in H1.
  pose proof (shr_fexp_nonneg _ e' loc_Exact
                (round_nearest_even_nonneg _ (loc_of_shr_record mrs') H1)) as H2.
  destruct (shr_fexp 53 1024 _ e' loc_Exact) as [mrs'' e'']. cbn [fst] in H2.
  destruct (shr_m mrs'') as [|p|p]; [reflexivity | | lia].
  destruct (_ <=? _); reflexivity.
Qed.

Lemma fmul_8_nonneg x :
  nonneg x = true -> nonneg (Speedtest.fmul x Speedtest.f_8) = true.
Proof.
  unfold Speedtest.fmul, Speedtest.f_8.
  destruct x as [[]|[]| |[] m e]; cbn [nonneg negb]; try discriminate; intros _;
    try reflexivity.
  cbn [SFmul xorb]. apply binary_round_aux_nonneg. lia.
Qed.

Lemma fdiv_1e6_nonneg x :
  nonneg x = true -> nonneg (Speedtest.fdiv x Speedtest.f_1e6) = true.
Proof.
  unfold Speedtest.fdiv, Speedtest.f_1e6.
  destruct x as [[]|[]| |[] m e]; cbn [nonneg negb]; try discriminate; intros _;
    try reflexivity.
  cbn [SFdiv xorb]. unfold SFdiv_core_binary.
  match goal with
  | |- context [Z.div_eucl ?n ?d] =>
      assert (0 <= n) as Hn;
      [| pose proof (Z.div_pos n d Hn ltac:(lia)) as Hq;
         unfold Z.div in Hq; destruct (Z.div_eucl n d) as [q r] ]
  end.
  - destruct (_ - _) as [|p|p]; [lia | apply Z.shiftl_nonneg; lia | lia].
  - apply binary_round_aux_nonneg. exact Hq.
Qed.

(** X15.  The unit conversion of [run_speed_test] keeps a rate what it
    was in kind.  When [run_speed_test] returns, the latency is the one
    the library gave, unchanged; a rate read as zero, as a positive number
    or as [+inf] comes out neither NaN nor negative; and a rate read as
    NaN comes out as NaN, which [append_result] then writes as the text
    [nan]: nothing between the library and the log validates the
    reading. *)
Theorem run_speed_test_keeps_the_kind_of_a_rate lib dl ul ping :
  Speedtest.run_speed_test lib = Ok (dl, ul, ping) ->
  Speedtest.results_ping lib = Ok ping /\
  (forall x, Speedtest.download lib = Ok x -> nonneg x = true -> nonneg dl = true) /\
  (forall x, Speedtest.upload lib = Ok x -> nonneg x = true -> nonneg ul = true) /\
  (Speedtest.download lib = Ok S754_nan -> format_2f dl = "nan") /\
  (Speedtest.upload lib = Ok S754_nan -> format_2f ul = "nan").
Proof.
  unfold Speedtest.run_speed_test, Speedtest.call.
  destruct (Speedtest.import_speedtest lib); [discriminate|].
  destruct (Speedtest.new_Speedtest lib); [discriminate|].
  destruct (Speedtest.get_best_server lib); [discriminate|].
  cbn [Py.bind].
  destruct (Speedtest.download lib) as [d|]; [|discriminate].
  destruct (Speedtest.upload lib) as [u|]; [|discriminate].
  destruct (Speedtest.results_ping lib) as [p|]; [|discriminate].
  cbn [Py.bind]. intros [= <- <- <-].
  split; [reflexivity|]. split; [|split; [|split]].
  - intros x [= <-] Hx. apply fdiv_1e6_nonneg, fmul_8_nonneg, Hx.
  - intros x [= <-] Hx. apply fdiv_1e6_nonneg, fmul_8_nonneg, Hx.
  - intros [= ->]. reflexivity.
  - intros [= ->]. reflexivity.
Qed.

End Program.

(* ===================================================================== *)
(** * The theorems at concrete inputs *)
(* ===================================================================== *)



(** C7 at a file system that holds no file. *)
Lemma load_config_defaults_without_file_witness :
  load_config loads_examples repr_examples "config.toml" ∅ =
    Ok (app_dict 300 "internet_metrics.csv").
Proof.
  apply (load_config_defaults_without_file
           loads_examples repr_examples "config.toml" ∅).
  reflexivity.
Defined.

(** C5, the claim as written fails: two initializations of a missing log
    leave two header rows when the size of the file cannot be read at the
    second one, and one initialization of a log that holds its header
    appends a second header in the same circumstances. *)
Lemma ensure_csv_with_headers_second_header :
  initialize_repeatedly
    [(None, None, None); (Some (Exn OSError "Input/output error"), None, None)]
    "internet_metrics.csv" ∅ =
    Ok {[ "internet_metrics.csv" := header_line +:+ header_line ]} /\
  content fresh_log "internet_metrics.csv" = header_line /\
  ensure_csv_with_headers (Some (Exn OSError "Input/output error")) None None
    "internet_metrics.csv" fresh_log =
    Ok {[ "internet_metrics.csv" := header_line +:+ header_line ]} /\
  rows (header_line +:+ header_line) = 2%nat.
Proof. repeat split; vm_compute; reflexivity. Qed.



(** C4 at the sample (50.12, 9.87, 14.3) of 4 November 2026, 20:21:05. *)
Lemma append_result_writes_one_record_witness :
  append_result None "internet_metrics.csv" sample_when
      float_50_12 float_9_87 float_14_3 fresh_log =
    Ok (<["internet_metrics.csv" :=
            header_line +:+ "2026-11-04T20:21:05+00:00,50.12,9.87,14.30"
                        +:+ Csv.lineterminator]> fresh_log).
Proof.
  rewrite (proj1 (append_result_writes_one_record
                    None "internet_metrics.csv" sample_when
                    float_50_12 float_9_87 float_14_3 fresh_log
                    eq_refl eq_refl eq_refl)).
  reflexivity.
Defined.

(** C1 at a cycle whose measurement fails, and at one whose append is
    refused. *)
Lemma cycle_failure_is_isolated_witness :
  stderr (step loads_examples repr_examples unreachable_server in_first_cycle) =
    ["[isp-service-checker] Error during speed test: Unable to connect to servers"] /\
  files (step loads_examples repr_examples unreachable_server in_first_cycle) =
    fresh_log /\
  stderr (step loads_examples repr_examples read_only_disk in_first_cycle) =
    ["[isp-service-checker] Error during speed test: Read-only file system"].
Proof.
  pose proof (cycle_failure_is_isolated loads_examples repr_examples
                unreachable_server sample_when in_first_cycle
                (Exn SpeedtestException "Unable to connect to servers")
                eq_refl eq_refl eq_refl) as H1.
  pose proof (cycle_failure_is_isolated loads_examples repr_examples
                read_only_disk sample_when in_first_cycle
                (Exn OSError "Read-only file system")
                eq_refl eq_refl eq_refl) as H2.
  cbv zeta in H1, H2.
  destruct H1 as (_ & _ & Hf & He & _). destruct H2 as (_ & _ & _ & He2 & _).
  split; [exact He|]. split; [exact Hf | exact He2].
Defined.

(** C2 at a process asleep in the first second of a five-minute wait. *)
Lemma stop_during_wait_ends_within_one_increment_witness :
  at_ (run loads_examples repr_examples
         [Run measured; Signal 15; Run measured; Run measured]
         (react loads_examples repr_examples asleep (Signal 2))) = Exited 0 /\
  sleeps (run loads_examples repr_examples
            [Run measured; Signal 15; Run measured; Run measured]
            (react loads_examples repr_examples asleep (Signal 2))) = [1].
Proof.
  pose proof (stop_during_wait_ends_within_one_increment
                loads_examples repr_examples asleep 0 2
                [Run measured; Signal 15; Run measured; Run measured]
                (or_intror eq_refl) (le_n 3)) as H.
  cbv zeta in H. destruct H as (_ & He & Hs & _).
  split; [exact He | exact Hs].
Defined.




(** The scenario of the specification.  The log ends with the header and
    two data rows, one diagnostic was printed, six seconds were slept and
    the process has exited with status 0. *)
Example scenario_two_rows_one_diagnostic :
  let s := run loads_examples repr_examples scenario scenario_start in
  files s !! "internet_metrics.csv" =
    Some (header_line
          +:+ "2026-11-04T20:21:05+00:00,50.12,9.87,14.30" +:+ Csv.lineterminator
          +:+ "2026-11-04T20:21:05+00:00,50.12,9.87,14.30" +:+ Csv.lineterminator) /\
  stderr s =
    ["[isp-service-checker] Error during speed test: Unable to connect to servers"] /\
  sleeps s = [1; 1; 1; 1; 1; 1] /\
  exit_status s = Some (Status 0).
Proof. vm_compute. repeat split. Qed.

(** Startup without a configuration file and without a log: the defaults
    are taken, the header is written and the two status lines are
    printed. *)
Example startup_from_nothing :
  let s := step loads_examples repr_examples measured (initial ∅) in
  at_ s = LoopTop /\
  interval_seconds s = 300 /\
  files s !! "internet_metrics.csv" = Some header_line /\
  stdout s = ["[isp-service-checker] Logging to: internet_metrics.csv";
              "[isp-service-checker] Interval: 300 seconds"].
Proof. vm_compute. repeat split. Qed.

(** X1 at a cycle begun at 20:21:05. *)
Lemma successful_cycle_records_its_start_witness :
  files (run loads_examples repr_examples [Run measured; Run measured] at_loop_test)
    !! "internet_metrics.csv" =
  Some (header_line +:+ "2026-11-04T20:21:05+00:00,50.12,9.87,14.30"
                    +:+ Csv.lineterminator).
Proof.
  pose proof (successful_cycle_records_its_start loads_examples repr_examples
                measured measured at_loop_test float_50_12 float_9_87 float_14_3
                eq_refl eq_refl eq_refl eq_refl) as H.
  cbv zeta in H. destruct H as (_ & Hf & _). rewrite Hf. reflexivity.
Defined.

(** X3 at the configuration file, while the scenario runs. *)
Lemma only_the_log_is_written_witness :
  files (run loads_examples repr_examples scenario
           (set_files (<["config.toml" := sample_doc]> fresh_log) scenario_start))
    !! "config.toml" = Some sample_doc.
Proof.
  rewrite (proj1 (only_the_log_is_written loads_examples repr_examples scenario
                    (set_files (<["config.toml" := sample_doc]> fresh_log)
                               scenario_start)
                    "config.toml" eq_refl ltac:(discriminate))).
  reflexivity.
Defined.

(** X4 at a first start with no file at all, followed by the scenario. *)
Lemma header_stays_first_witness :
  exists samples : list sample,
    content (files (run loads_examples repr_examples scenario
                      (step loads_examples repr_examples measured (initial ∅))))
            "internet_metrics.csv" =
      header_line +:+ concat_lines (map sample_line samples) /\
    Forall (fun x => measured_in scenario x /\ begun_in scenario x) samples.
Proof.
  destruct (header_stays_first loads_examples repr_examples measured ∅
              300 "internet_metrics.csv"
              {[ "internet_metrics.csv" := header_line ]} scenario)
    as (samples & Hc & F & _); [reflexivity | reflexivity | reflexivity |].
  exists samples. split; [exact Hc | exact F].
Defined.

(** X5 at a run that is signalled before it starts. *)
Lemma exit_only_after_stop_request_witness :
  (at_ (run loads_examples repr_examples
          [Signal 2; Run measured; Run measured] (initial ∅)) = Exited 0 /\
   Status 0 = Status 0 /\
   _STOP_REQUESTED (run loads_examples repr_examples
                      [Signal 2; Run measured; Run measured] (initial ∅)) = true /\
   has_signal [Signal 2; Run measured; Run measured] = true /\
   last (stdout (run loads_examples repr_examples
                   [Signal 2; Run measured; Run measured] (initial ∅))) =
     Some "[isp-service-checker] Stopped.")
  \/
  (exists e,
     at_ (run loads_examples repr_examples
            [Signal 2; Run measured; Run measured] (initial ∅)) = Crashed e /\
     Status 0 = ending_of_exception e /\
     (is_Exception e = true -> Status 0 = Status 1) /\
     ((exists a, In (Run a) [Signal 2; Run measured; Run measured] /\
                 at_ (step loads_examples repr_examples a (initial ∅)) = Crashed e) \/
      (is_Exception e = false /\
       exists a, In (Run a) [Signal 2; Run measured; Run measured] /\
                 cycle_error a = Some e))).
Proof.
  apply (exit_only_after_stop_request loads_examples repr_examples
           [Signal 2; Run measured; Run measured] ∅ (Status 0)).
  reflexivity.
Defined.

(** X6 at a cycle in which [SystemExit] is raised. *)
Lemma only_non_exceptions_leave_the_loop_witness :
  is_Exception (Exn (SystemExit 2) "2") = false.
Proof.
  apply (only_non_exceptions_leave_the_loop loads_examples repr_examples
           [Run aborted] in_first_cycle (Exn (SystemExit 2) "2")); reflexivity.
Defined.

(** X7 at the three cycles of the scenario, the stop signal left out. *)
Lemma loop_runs_until_signalled_witness :
  halted (run loads_examples repr_examples
            (repeat (Run measured) 7 ++ repeat (Run unreachable_server) 7
               ++ repeat (Run measured) 7) scenario_start) = false.
Proof.
  apply (loop_runs_until_signalled loads_examples repr_examples
           (repeat (Run measured) 7 ++ repeat (Run unreachable_server) 7
              ++ repeat (Run measured) 7) scenario_start);
    try reflexivity.
  intros a e Hin He. cbn in Hin.
  repeat (destruct Hin as [Hin|Hin];
          [injection Hin as <-; cbv in He; first [discriminate He | injection He as <-];
           reflexivity|]).
  destruct Hin.
Defined.

(** X8 at a signal delivered during the first measurement. *)
Lemma stop_during_measurement_keeps_the_sample_witness :
  at_ (run loads_examples repr_examples
         [Signal 15; Run measured; Run measured; Run measured] in_first_cycle)
    = Exited 0 /\
  files (run loads_examples repr_examples
           [Signal 15; Run measured; Run measured; Run measured] in_first_cycle)
    !! "internet_metrics.csv" =
  Some (header_line +:+ "2026-11-04T20:21:05+00:00,50.12,9.87,14.30"
                    +:+ Csv.lineterminator).
Proof.
  pose proof (stop_during_measurement_keeps_the_sample loads_examples repr_examples
                15 measured measured measured sample_when in_first_cycle
                float_50_12 float_9_87 float_14_3 eq_refl eq_refl eq_refl) as H.
  cbv zeta in H. destruct H as (Ha & Hf & _).
  split; [exact Ha | rewrite Hf; reflexivity].
Defined.


(** X10 at a file that is no TOML. *)
Lemma load_config_on_unusable_files_witness :
  load_config loads_examples repr_examples "config.toml" broken_fs =
    Raise (Exn TOMLDecodeError "Invalid statement").
Proof.
  apply (proj1 (load_config_on_unusable_files loads_examples repr_examples
                  "config.toml" broken_fs "interval_seconds 60" eq_refl)).
  reflexivity.
Defined.

(** X11 at a start on that file. *)
Lemma configuration_failure_is_fatal_witness :
  files (step loads_examples repr_examples measured (initial broken_fs)) = broken_fs.
Proof.
  pose proof (configuration_failure_is_fatal loads_examples repr_examples
                measured (initial broken_fs)
                (Exn TOMLDecodeError "Invalid statement") eq_refl eq_refl) as H.
  cbv zeta in H. destruct H as (_ & Hf & _). exact Hf.
Defined.

(** X13 at a sample appended where there is no log. *)
Lemma append_to_missing_log_leaves_no_header_witness :
  ensure_csv_with_headers None None None "internet_metrics.csv"
    (<["internet_metrics.csv" :=
         "2026-11-04T20:21:05+00:00,50.12,9.87,14.30" +:+ Csv.lineterminator]> ∅)
  = Ok (<["internet_metrics.csv" :=
            "2026-11-04T20:21:05+00:00,50.12,9.87,14.30" +:+ Csv.lineterminator]> ∅)
  /\
  ensure_csv_with_headers (Some (Exn OSError "Input/output error")) None None
    "internet_metrics.csv"
    (<["internet_metrics.csv" :=
         "2026-11-04T20:21:05+00:00,50.12,9.87,14.30" +:+ Csv.lineterminator]> ∅)
  = Ok (<["internet_metrics.csv" :=
            record_line sample_when float_50_12 float_9_87 float_14_3
              +:+ header_line]>
          (<["internet_metrics.csv" :=
               "2026-11-04T20:21:05+00:00,50.12,9.87,14.30"
                 +:+ Csv.lineterminator]> ∅)).
Proof.
  destruct (append_to_missing_log_leaves_no_header None None
              "internet_metrics.csv" sample_when float_50_12 float_9_87 float_14_3 ∅
              (<["internet_metrics.csv" :=
                   "2026-11-04T20:21:05+00:00,50.12,9.87,14.30"
                     +:+ Csv.lineterminator]> ∅))
    as (_ & Hk & Hs & _); [reflexivity | reflexivity |].
  split; [exact Hk | exact (Hs (Exn OSError "Input/output error") eq_refl)].
Defined.

(** X14 at the scenario: two rows added, two status lines and the
    farewell printed. *)
Lemma one_status_line_per_row_witness :
  (rows (content (files (run loads_examples repr_examples scenario scenario_start))
                 "internet_metrics.csv") + 0 + 1 = 1 + 3)%nat.
Proof.
  pose proof (one_status_line_per_row loads_examples repr_examples scenario
                scenario_start eq_refl eq_refl) as H.
  vm_compute in H. vm_compute. exact H.
Defined.

(** X15 at a line that measures 6 265 000 bits per second down. *)
Lemma run_speed_test_keeps_the_kind_of_a_rate_witness :
  Speedtest.run_speed_test good_line = Ok (float_50_12, float_77_07, float_14_3) /\
  nonneg float_50_12 = true.
Proof.
  split; [reflexivity|].
  destruct (run_speed_test_keeps_the_kind_of_a_rate good_line
              float_50_12 float_77_07 float_14_3 eq_refl) as (_ & Hd & _).
  apply (Hd float_6265000); reflexivity.
Defined.

(** X16 at a successful first cycle with a two-second interval. *)
Lemma wait_is_the_same_after_any_cycle_witness :
  sleeps (run loads_examples repr_examples
            (Run measured :: map Run (repeat measured 4 ++ [measured; measured]))
            in_first_cycle) = [1; 1].
Proof.
  pose proof (wait_is_the_same_after_any_cycle loads_examples repr_examples
                measured sample_when in_first_cycle (repeat measured 4)
                measured measured eq_refl eq_refl
                ltac:(intros e He; discriminate He) eq_refl) as H.
  cbv zeta in H. destruct H as (_ & Hs). exact Hs.
Defined.

(** X17 at a restart on a log that holds its header: with the size
    readable, and with a size call that raises. *)
Lemma restart_continues_the_log_witness :
  files (step loads_examples repr_examples measured (initial fresh_log)) =
    fresh_log /\
  files (step loads_examples repr_examples unreadable_size (initial fresh_log)) =
    <["internet_metrics.csv" :=
        content fresh_log "internet_metrics.csv" +:+ header_line]> fresh_log.
Proof.
  split.
  - apply (restart_continues_the_log loads_examples repr_examples measured
             fresh_log 300 "internet_metrics.csv" []);
      [reflexivity | discriminate | reflexivity].
  - destruct (restart_continues_the_log loads_examples repr_examples
                unreadable_size fresh_log 300 "internet_metrics.csv" [])
      as (_ & H & _); [reflexivity | discriminate |].
    apply (H (Exn OSError "Input/output error")); reflexivity.
Defined.
